(** * post-reminder: the reminder script [src/main.py], embedded and verified

    The script reads content records from a Notion database, compares three
    milestone dates of every record with "tomorrow", and posts a Slack
    reminder for each milestone that is one day out.

    The embedding follows the Python source function by function.  Values
    are dynamically typed, as in the source: a property mapping is a [dict]
    whose values may be anything the JSON decoder can produce.  Exceptions
    are explicit: a call returns [Ok v] or [Raise e]. *)

From stdpp Require Import base option list gmap strings fin_maps.
From Stdlib Require Import ZArith Lia Ascii String.

Set Warnings "-register-all".

Local Open Scope Z_scope.
Local Open Scope string_scope.
Local Open Scope list_scope.

(** ** Python values and exceptions *)

(** The values a decoded JSON document is made of.  A Python [str] is
    modelled by a [string] whose characters are code points below 256;
    dictionary keys are strings, as JSON has them. *)
Inductive pyval : Type :=
  | PNone : pyval
  | PBool : bool -> pyval
  | PInt : Z -> pyval
  | PStr : string -> pyval
  | PList : list pyval -> pyval
  | PDict : gmap string pyval -> pyval.

(** The object a [SlackApiError] carries as [e.response], as far as the
    script uses it, which is to subscript it.  The client's own response
    object reads its data with [.get], so that a missing entry reads as
    [None], and cannot be subscripted when its data is binary or empty;
    to an answer that is not JSON the client attaches a plain [dict]. *)
Inductive slack_response : Type :=
  | SlackResponse : gmap string pyval -> slack_response
  | SlackResponseNoData : slack_response
  | ResponseDict : gmap string pyval -> slack_response.

(** The exception classes the script can meet.  All of them derive from
    [Exception]; only [APIResponseError] and [SlackApiError] are named in
    the source's handlers. *)
Inductive exn : Type :=
  | ValueError : exn
  | TypeError : exn
  | AttributeError : exn
  | KeyError : exn
  | IndexError : exn
  | OverflowError : exn
  | APIResponseError : string -> exn
  | SlackApiError : slack_response -> exn
  | OtherException : string -> exn.

Inductive result (A : Type) : Type :=
  | Ok : A -> result A
  | Raise : exn -> result A.
Arguments Ok {A} _.
Arguments Raise {A} _.

(** Sequencing: an exception raised by the first call is the outcome. *)
#[export] Instance result_ret : MRet result := fun A a => Ok a.
#[export] Instance result_bind : MBind result := fun A B k r =>
  match r with
  | Ok a => k a
  | Raise e => Raise e
  end.

(** Truth value of an object, as [if v] and [not v] take it. *)
Definition truthy (v : pyval) : bool :=
  match v with
  | PNone => false
  | PBool b => b
  | PInt z => negb (z =? 0)%Z
  | PStr s => negb (String.eqb s "")
  | PList l => match l with [] => false | _ => true end
  | PDict d => negb (Nat.eqb (size d) 0)
  end.

(** [v == 'lit'] for a string literal. *)
Definition py_eq_str (v : pyval) (lit : string) : bool :=
  match v with
  | PStr s => String.eqb s lit
  | _ => false
  end.

(** [v.get(key, default)]: only a [dict] has the method. *)
Definition py_get (v : pyval) (key : string) (dflt : pyval) : result pyval :=
  match v with
  | PDict d => Ok (default dflt (d !! key))
  | _ => Raise AttributeError
  end.

(** [v[key]] with a string key. *)
Definition py_getitem_key (v : pyval) (key : string) : result pyval :=
  match v with
  | PDict d => match d !! key with Some x => Ok x | None => Raise KeyError end
  | _ => Raise TypeError
  end.

(** [v[0]].  A list or a string gives its first element, a dict is looked
    up at the key [0], which no string-keyed dict has. *)
Definition py_getitem_0 (v : pyval) : result pyval :=
  match v with
  | PList (x :: _) => Ok x
  | PList [] => Raise IndexError
  | PStr (String c _) => Ok (PStr (String c ""))
  | PStr EmptyString => Raise IndexError
  | PDict _ => Raise KeyError
  | _ => Raise TypeError
  end.

(** [response[key]] on the response of a [SlackApiError]. *)
Definition response_getitem (response : slack_response) (key : string) : result pyval :=
  match response with
  | SlackResponse data => Ok (default PNone (data !! key))
  | SlackResponseNoData => Raise ValueError
  | ResponseDict fields => py_getitem_key (PDict fields) key
  end.

(** ** Constants for Notion property names *)

Definition NOTION_FIRST_DRAFT_DATE_PROP : string := "first_draft_date".
Definition NOTION_READY_BY_DATE_PROP : string := "ready_by_date".
Definition NOTION_PUBLISHING_DATE_PROP : string := "publishing_date".
Definition NOTION_TITLE_PROP : string := "title".
Definition NOTION_AUTHOR_PROP : string := "author".

(** ** Field extraction *)

Definition get_page_title (properties : pyval) : result pyval :=
  title_prop ← py_get properties NOTION_TITLE_PROP (PDict ∅);
  ty ← py_get title_prop "type" PNone;
  if py_eq_str ty "title" then
    segs ← py_get title_prop "title" PNone;
    if truthy segs then
      segs' ← py_getitem_key title_prop "title";
      first ← py_getitem_0 segs';
      py_get first "plain_text" (PStr "Untitled")
    else Ok (PStr "Untitled")
  else Ok (PStr "Untitled").

Definition get_page_author_mention (properties : pyval) : result pyval :=
  author_prop ← py_get properties NOTION_AUTHOR_PROP (PDict ∅);
  ty ← py_get author_prop "type" PNone;
  if py_eq_str ty "people" then
    people ← py_get author_prop "people" PNone;
    if truthy people then
      people' ← py_getitem_key author_prop "people";
      first ← py_getitem_0 people';
      py_get first "name" (PStr "Unknown Author")
    else Ok (PStr "Unknown Author")
  else Ok (PStr "Unknown Author").

Definition get_date_property (properties : pyval) (prop_name : string) : result pyval :=
  date_prop ← py_get properties prop_name (PDict ∅);
  ty ← py_get date_prop "type" PNone;
  if py_eq_str ty "date" then
    date ← py_get date_prop "date" PNone;
    if truthy date then
      date' ← py_getitem_key date_prop "date";
      py_get date' "start" PNone
    else Ok PNone
  else Ok PNone.

(** ** Calendar dates, as the [datetime] module has them *)

Record date : Type := mkdate { year : Z; month : Z; day : Z }.

(** A [datetime]: a calendar date and a time of day, the latter counted in
    microseconds since midnight. *)
Record datetime : Type := mkdatetime { dt_date : date; dt_time : Z }.

Definition MINYEAR : Z := 1.
Definition MAXYEAR : Z := 9999.

Definition is_leap (y : Z) : bool :=
  (y mod 4 =? 0)%Z && (negb (y mod 100 =? 0)%Z || (y mod 400 =? 0)%Z).

Definition days_in_month (y m : Z) : Z :=
  if (m =? 2)%Z then (if is_leap y then 29 else 28)
  else if (m =? 4)%Z || (m =? 6)%Z || (m =? 9)%Z || (m =? 11)%Z then 30
  else 31.

(** The check the [date] constructor makes; it raises [ValueError]
    otherwise. *)
Definition valid_date (d : date) : bool :=
  (MINYEAR <=? year d)%Z && (year d <=? MAXYEAR)%Z &&
  (1 <=? month d)%Z && (month d <=? 12)%Z &&
  (1 <=? day d)%Z && (day d <=? days_in_month (year d) (month d))%Z.

Definition date_eqb (a b : date) : bool :=
  (year a =? year b)%Z && (month a =? month b)%Z && (day a =? day b)%Z.

(** Proleptic Gregorian ordinal, [date.toordinal]: 0001-01-01 is day 1. *)
Definition days_before_year (y : Z) : Z :=
  let y' := y - 1 in y' * 365 + y' / 4 - y' / 100 + y' / 400.

Fixpoint days_before_month_aux (y : Z) (n : nat) : Z :=
  match n with
  | O => 0
  | S n' => days_before_month_aux y n' + days_in_month y (Z.of_nat n)
  end.

Definition days_before_month (y m : Z) : Z :=
  days_before_month_aux y (Z.to_nat (m - 1)).

Definition toordinal (d : date) : Z :=
  days_before_year (year d) + days_before_month (year d) (month d) + day d.

(** [d + timedelta(days=1)] on the date part: the next calendar day, or
    [OverflowError] past 9999-12-31. *)
Definition add_one_day (d : date) : result date :=
  if (day d <? days_in_month (year d) (month d))%Z then
    Ok (mkdate (year d) (month d) (day d + 1))
  else if (month d <? 12)%Z then
    Ok (mkdate (year d) (month d + 1) 1)
  else if (year d <? MAXYEAR)%Z then
    Ok (mkdate (year d + 1) 1 1)
  else Raise OverflowError.

(** [dt + timedelta(days=1)]: the time of day is kept. *)
Definition datetime_add_one_day (dt : datetime) : result datetime :=
  d ← add_one_day (dt_date dt);
  Ok (mkdatetime d (dt_time dt)).

(** ** [datetime.strptime(s, '%Y-%m-%d')]

    The format is compiled to the regular expression
    [(?P<Y>\d\d\d\d)-(?P<m>1[0-2]|0[1-9]|[1-9])-(?P<d>3[0-1]|[1-2]\d|0[1-9]|[1-9]| [1-9])],
    matched at the start of the string; text left over after the match is an
    error, and so is a date the calendar does not have.  A group is modelled
    by the list of its matches in the order the alternatives are tried, each
    with the rest of the input, so that the first element of the composed
    list is the match the backtracking matcher finds. *)

(** The value of a decimal digit: the characters "0" to "9" are the code
    points 48 to 57. *)
Definition digit_of_ascii (c : ascii) : option Z :=
  let code := Z.of_N (N_of_ascii c) in
  if (48 <=? code)%Z && (code <=? 57)%Z then Some (code - 48) else None.

(** One character whose digit value lies in [lo..hi]. *)
Definition re_digit (lo hi : Z) (s : string) : list (Z * string) :=
  match s with
  | String c rest =>
      match digit_of_ascii c with
      | Some v => if (lo <=? v)%Z && (v <=? hi)%Z then [(v, rest)] else []
      | None => []
      end
  | EmptyString => []
  end.

(** One literal character. *)
Definition re_lit (c : ascii) (s : string) : list string :=
  match s with
  | String c' rest => if Ascii.eqb c c' then [rest] else []
  | EmptyString => []
  end.

(** Two digits in a row, read as a number. *)
Definition re_digit2 (lo1 hi1 lo2 hi2 : Z) (s : string) : list (Z * string) :=
  '(a, r1) ← re_digit lo1 hi1 s;
  '(b, r2) ← re_digit lo2 hi2 r1;
  [(10 * a + b, r2)].

(** [(?P<Y>\d\d\d\d)] *)
Definition re_Y (s : string) : list (Z * string) :=
  '(ab, r1) ← re_digit2 0 9 0 9 s;
  '(cd, r2) ← re_digit2 0 9 0 9 r1;
  [(100 * ab + cd, r2)].

(** [(?P<m>1[0-2]|0[1-9]|[1-9])] *)
Definition re_m (s : string) : list (Z * string) :=
  re_digit2 1 1 0 2 s ++ re_digit2 0 0 1 9 s ++ re_digit 1 9 s.

(** [(?P<d>3[0-1]|[1-2]\d|0[1-9]|[1-9]| [1-9])] *)
Definition re_d (s : string) : list (Z * string) :=
  re_digit2 3 3 0 1 s ++ re_digit2 1 2 0 9 s ++ re_digit2 0 0 1 9 s ++
  re_digit 1 9 s ++ (r ← re_lit " " s; re_digit 1 9 r).

Definition format_regex_match (s : string) : option (Z * Z * Z * string) :=
  head ('(y, r1) ← re_Y s;
        r2 ← re_lit "-" r1;
        '(m, r3) ← re_m r2;
        r4 ← re_lit "-" r3;
        '(d, r5) ← re_d r4;
        [(y, m, d, r5)]).

Definition strptime (s : string) : result datetime :=
  match format_regex_match s with
  | None => Raise ValueError
  | Some (y, m, d, rest) =>
      if String.eqb rest "" then
        if valid_date (mkdate y m d) then Ok (mkdatetime (mkdate y m d) 0)
        else Raise ValueError
      else Raise ValueError
  end.

(** ** The proximity rule *)

Definition check_date_proximity (now : datetime) (date_str : pyval) : result pyval :=
  if negb (truthy date_str) then Ok (PBool false)
  else
    date ← match date_str with
            | PStr s => strptime s
            | _ => Raise TypeError
            end;
    let today := now in
    tomorrow ← datetime_add_one_day today;
    Ok (PBool (date_eqb (dt_date date) (dt_date tomorrow))).

(** ** Effects: the log, the sink, and the run's surroundings *)

(** A request made to the notification sink: [chat_postMessage(channel=...,
    text=...)]. *)
Record post : Type := mkpost { channel : string; text : string }.

(** The records the script hands to [logging] at level INFO or ERROR, one
    constructor per call site, carrying the values the message is
    formatted from.  The one [logging.debug] call emits nothing under the
    configured level and formatting its message cannot raise. *)
Inductive log_record : Type :=
  | ErrorMissingEnvironment
  | InfoStarting
  | InfoQuerying (database_id : string)
  | InfoDeadline (title : pyval) (stage : string) (date_str : pyval) (author_mention : pyval)
  | InfoSending (channel : string) (title : pyval) (stage : string)
  | ErrorSlack (error : pyval)
  | InfoFinished (processed_pages notifications_sent : Z)
  | ErrorNotion (detail : string)
  | ErrorUnexpected (e : exn).

(** What a run leaves behind: the log lines and the requests made to the
    sink, oldest first. *)
Record state : Type := mkstate { log : list log_record; posts : list post }.

(** What the run takes from outside the script. *)
Record services : Type := mkservices {
  (** [str(v)] of a value that is not itself a string, as an f-string
      formats it *)
  str : pyval -> string;
  (** [datetime.now()] *)
  now : datetime;
  (** [notion.databases.query(database_id=...)] *)
  databases_query : string -> result pyval;
  (** [slack_client.chat_postMessage(channel=..., text=...)], which may
      depend on the requests made before; a [SlackApiError] carries its
      [e.response] *)
  chat_postMessage : list post -> post -> result unit
}.

(** The four values the start-up check has found in the environment. *)
Record config : Type := mkconfig {
  NOTION_TOKEN : string;
  SLACK_BOT_TOKEN : string;
  SLACK_CHANNEL_ID : string;
  NOTION_DATABASE_ID : string
}.

(** Computations that log, post, and may raise.  The effects made before an
    exception stay made. *)
Definition M (A : Type) : Type := state -> result A * state.

#[export] Instance M_ret : MRet M := fun A a st => (Ok a, st).
#[export] Instance M_bind : MBind M := fun A B k m st =>
  match m st with
  | (Ok a, st') => k a st'
  | (Raise e, st') => (Raise e, st')
  end.

Definition lift {A} (r : result A) : M A := fun st => (r, st).

Definition logging (r : log_record) : M unit :=
  fun st => (Ok tt, mkstate (log st ++ [r]) (posts st)).

(** [try: m  except ...: h e]; [h] returns [None] for a class no handler
    names, and the exception goes on. *)
Definition try_except {A} (m : M A) (h : exn -> option (M A)) : M A :=
  fun st =>
    match m st with
    | (Ok a, st') => (Ok a, st')
    | (Raise e, st') =>
        match h e with
        | Some handler => handler st'
        | None => (Raise e, st')
        end
    end.

(** A [for] loop that updates loop-carried variables. *)
Fixpoint for_each {A S} (body : A -> S -> M S) (l : list A) (s : S) : M S :=
  match l with
  | [] => mret s
  | x :: l' => s' ← body x s; for_each body l' s'
  end.

(** The items a [for] loop draws from a value. *)
Definition py_iter (v : pyval) : result (list pyval) :=
  match v with
  | PList l => Ok l
  | PStr s => Ok ((fun c => PStr (String c "")) <$> list_ascii_of_string s)
  | PDict d => Ok ((fun kv => PStr kv.1) <$> map_to_list d)
  | _ => Raise TypeError
  end.

(** A value inside an f-string. *)
Definition fstr (sv : services) (v : pyval) : string :=
  match v with
  | PStr s => s
  | _ => str sv v
  end.

(** ** Notification dispatch *)

Definition message (sv : services) (author_mention title : pyval) (stage : string) : string :=
  fstr sv author_mention +:+ " - Your post '" +:+ fstr sv title +:+ "', has the " +:+ stage
  +:+ " date coming up tomorrow - please ensure that your content is ready and reviewed as per the right stage.".

Definition slack_call (sv : services) (p : post) : M unit :=
  fun st => (chat_postMessage sv (posts st) p, mkstate (log st) (posts st ++ [p])).

Definition send_slack_message (cfg : config) (sv : services)
    (author_mention title : pyval) (stage : string) : M unit :=
  try_except
    (let message := message sv author_mention title stage in
     _ ← logging (InfoSending (SLACK_CHANNEL_ID cfg) title stage);
     slack_call sv (mkpost (SLACK_CHANNEL_ID cfg) message))
    (fun e => match e with
              | SlackApiError response =>
                  Some (error ← lift (response_getitem response "error");
                        logging (ErrorSlack error))
              | _ => None
              end).

(** ** Orchestration *)

(** The body of the inner loop, for one entry of [dates_to_check]. *)
Definition check_and_notify (cfg : config) (sv : services) (title author_mention : pyval)
    (entry : string * pyval) (notifications_sent : Z) : M Z :=
  let '(stage, date_str) := entry in
  due ← lift (check_date_proximity (now sv) date_str);
  if truthy due then
    _ ← logging (InfoDeadline title stage date_str author_mention);
    _ ← send_slack_message cfg sv author_mention title stage;
    mret (notifications_sent + 1)
  else mret notifications_sent.

(** The [dates_to_check] literal: the three extractions run in this order
    before any date is looked at, and the loop below visits the entries in
    the order they were inserted. *)
Definition dates_to_check (properties : pyval) : result (list (string * pyval)) :=
  first ← get_date_property properties NOTION_FIRST_DRAFT_DATE_PROP;
  final ← get_date_property properties NOTION_READY_BY_DATE_PROP;
  published ← get_date_property properties NOTION_PUBLISHING_DATE_PROP;
  Ok [("first draft", first); ("final draft", final); ("published version", published)].

(** The body of the outer loop, for one page; the loop carries the two
    counters. *)
Definition process_page (cfg : config) (sv : services) (page : pyval)
    (counters : Z * Z) : M (Z * Z) :=
  let '(processed_pages, notifications_sent) := counters in
  let processed_pages := processed_pages + 1 in
  properties ← lift (py_get page "properties" (PDict ∅));
  page_id ← lift (py_get page "id" PNone);
  title ← lift (get_page_title properties);
  author_mention ← lift (get_page_author_mention properties);
  dates_to_check ← lift (dates_to_check properties);
  notifications_sent ←
    for_each (check_and_notify cfg sv title author_mention) dates_to_check notifications_sent;
  mret (processed_pages, notifications_sent).

Definition main (cfg : config) (sv : services) : M unit :=
  _ ← logging InfoStarting;
  try_except
    (_ ← logging (InfoQuerying (NOTION_DATABASE_ID cfg));
     response ← lift (databases_query sv (NOTION_DATABASE_ID cfg));
     results ← lift (py_get response "results" (PList []));
     pages ← lift (py_iter results);
     '(processed_pages, notifications_sent) ← for_each (process_page cfg sv) pages (0, 0);
     logging (InfoFinished processed_pages notifications_sent))
    (fun e => match e with
              | APIResponseError detail => Some (logging (ErrorNotion detail))
              | _ => Some (logging (ErrorUnexpected e))
              end).

(** ** The script: start-up check, then [main] *)

(** [os.getenv(name)]: the value, or [None]. *)
Definition getenv_value (o : option string) : pyval :=
  match o with
  | Some s => PStr s
  | None => PNone
  end.

(** The process: its exit status and what it left behind.  [getenv] is the
    process environment.  The start-up check ends the process with status 1
    before any call; an exception that leaves [main] would end it with
    status 1 too. *)
Definition script (getenv : string -> option string) (sv : services) (st : state)
    : Z * state :=
  let token := getenv "NOTION_TOKEN" in
  let bot := getenv "SLACK_BOT_TOKEN" in
  let chan := getenv "SLACK_CHANNEL_ID" in
  let db := getenv "NOTION_DATABASE_ID" in
  if negb (forallb truthy (getenv_value <$> [token; bot; chan; db])) then
    (1, mkstate (log st ++ [ErrorMissingEnvironment]) (posts st))
  else
    let cfg := mkconfig (default "" token) (default "" bot) (default "" chan) (default "" db) in
    match main cfg sv st with
    | (Ok _, st') => (0, st')
    | (Raise _, st') => (1, st')
    end.

(** * Definitions for the statements *)

(** ** Shapes of properties *)

Definition is_dict (v : pyval) : bool :=
  match v with
  | PDict _ => true
  | _ => false
  end.

(** A payload the title and author extraction can read: nothing to read, or
    a list whose first entry is a mapping. *)
Definition entries_ok (v : pyval) : bool :=
  negb (truthy v) ||
  match v with
  | PList (PDict _ :: _) => true
  | _ => false
  end.

(** A payload the date extraction can read: nothing to read, or a
    mapping. *)
Definition object_ok (v : pyval) : bool :=
  negb (truthy v) || is_dict v.

(** The property under [key] is absent, or is a mapping whose payload, when
    its declared type is [ty], passes [payload_ok].  The payload sits under
    the key that names the type. *)
Definition prop_shape_ok (payload_ok : pyval -> bool) (ty : string)
    (props : gmap string pyval) (key : string) : bool :=
  match props !! key with
  | None => true
  | Some (PDict p) =>
      if py_eq_str (default PNone (p !! "type")) ty
      then payload_ok (default PNone (p !! ty))
      else true
  | Some _ => false
  end.

(** The first entry of a payload that passed the truth test, and the read
    of one field of it: the tail of the title and author extraction. *)
Definition first_field (payload : pyval) (field : string) (dflt : pyval) : result pyval :=
  first ← py_getitem_0 payload;
  py_get first field dflt.

Definition title_foo_props : gmap string pyval :=
  {[ "title" := PDict (<[ "type" := PStr "title" ]>
       {[ "title" := PList [PDict {[ "plain_text" := PStr "Foo" ]}] ]}) ]}.

Definition author_alice_props : gmap string pyval :=
  {[ "author" := PDict (<[ "type" := PStr "people" ]>
       {[ "people" := PList [PDict {[ "name" := PStr "Alice" ]}] ]}) ]}.

Definition ready_by_props : gmap string pyval :=
  {[ "ready_by_date" := PDict (<[ "type" := PStr "date" ]>
       {[ "date" := PDict (<[ "start" := PStr "2024-05-01" ]>
                             {[ "end" := PStr "2024-05-03" ]}) ]}) ]}.

(** ** Date strings *)

(** The character of a decimal digit. *)
Definition digit_char (k : Z) : ascii := ascii_of_nat (48 + Z.to_nat k).

(** A number below 100 in two digits, in front of [rest]. *)
Definition two_digits (n : Z) (rest : string) : string :=
  String (digit_char (n / 10)) (String (digit_char (n mod 10)) rest).

(** The well-formed date string [YYYY-MM-DD] of a calendar date: year in
    four digits, month and day in two, zero-padded. *)
Definition iso_date_string (d : date) : string :=
  two_digits (year d / 100) (two_digits (year d mod 100)
    (String "-" (two_digits (month d) (String "-" (two_digits (day d) ""))))).

Definition noon_2024_02_28 : datetime := mkdatetime (mkdate 2024 2 28) 43200000000.

(** ** The sink, and surroundings for the examples *)

(** The sink's client raises nothing but its own [SlackApiError], with a
    response whose "error" entry can be read. *)
Definition sink_typed (sv : services) : Prop :=
  forall history p e, chat_postMessage sv history p = Raise e ->
  exists response error,
    e = SlackApiError response /\ response_getitem response "error" = Ok error.

Definition demo_config : config := mkconfig "secret_n" "xoxb-s" "C012345" "db-1".

(** A run's surroundings with the clock at noon of 2024-02-28, the given
    query outcome and the given sink. *)
Definition demo_services (query : result pyval)
    (sink : list post -> post -> result unit) : services :=
  mkservices (fun _ => "None") noon_2024_02_28 (fun _ => query) sink.

Definition sink_accepts : list post -> post -> result unit := fun _ _ => Ok tt.
Definition sink_rejects : list post -> post -> result unit :=
  fun _ _ =>
    Raise (SlackApiError
             (SlackResponse (<[ "ok" := PBool false ]>
                               {[ "error" := PStr "channel_not_found" ]}))).
Definition sink_unreachable : list post -> post -> result unit :=
  fun _ _ => Raise (OtherException "URLError").

Definition empty_state : state := mkstate [] [].

(** ** What a run is expected to do *)

Definition stage_post (cfg : config) (sv : services) (title author_mention : pyval)
    (stage : string) : post :=
  mkpost (SLACK_CHANNEL_ID cfg) (message sv author_mention title stage).

(** The stages the inner loop notifies: those whose date passes the rule,
    up to the first entry on which the rule raises. *)
Fixpoint due_before_failure (now : datetime) (entries : list (string * pyval)) : list string :=
  match entries with
  | [] => []
  | (stage, date_str) :: entries' =>
      match check_date_proximity now date_str with
      | Ok due => (if truthy due then [stage] else []) ++ due_before_failure now entries'
      | Raise _ => []
      end
  end.

(** The exception of the first entry on which the rule raises. *)
Fixpoint first_failure (now : datetime) (entries : list (string * pyval)) : option exn :=
  match entries with
  | [] => None
  | (_, date_str) :: entries' =>
      match check_date_proximity now date_str with
      | Ok _ => first_failure now entries'
      | Raise e => Some e
      end
  end.

(** What processing a page reads from it before the inner loop. *)
Definition page_fields (page : pyval) : result (pyval * pyval * list (string * pyval)) :=
  properties ← py_get page "properties" (PDict ∅);
  page_id ← py_get page "id" PNone;
  title ← get_page_title properties;
  author_mention ← get_page_author_mention properties;
  entries ← dates_to_check properties;
  Ok (title, author_mention, entries).

Definition is_ok {A} (r : result A) : bool :=
  match r with
  | Ok _ => true
  | Raise _ => false
  end.

(** A milestone date passes the rule. *)
Definition passes_rule (now : datetime) (date_str : pyval) : bool :=
  match check_date_proximity now date_str with
  | Ok due => truthy due
  | Raise _ => false
  end.

(** A record the run gets through: its fields can be read and the rule
    can be evaluated on each of its three dates. *)
Definition record_ok (now : datetime) (page : pyval) : bool :=
  match page_fields page with
  | Ok (_, _, entries) =>
      forallb (fun entry => is_ok (check_date_proximity now entry.2)) entries
  | Raise _ => false
  end.

(** The notifications a record calls for: one per milestone whose date
    passes the rule, in the order first draft, final draft, published
    version. *)
Definition expected_posts (cfg : config) (sv : services) (page : pyval) : list post :=
  match page_fields page with
  | Ok (title, author_mention, entries) =>
      stage_post cfg sv title author_mention <$>
        (List.filter (fun entry => passes_rule (now sv) entry.2) entries).*1
  | Raise _ => []
  end.

(** The line the handlers of [main] log for an exception. *)
Definition handled (e : exn) : log_record :=
  match e with
  | APIResponseError detail => ErrorNotion detail
  | _ => ErrorUnexpected e
  end.

(** The pages the outer loop iterates over, from the outcome of the
    query. *)
Definition fetched_pages (query : result pyval) : result (list pyval) :=
  response ← query;
  results ← py_get response "results" (PList []);
  py_iter results.

(** The same surroundings with another record source. *)
Definition with_query (sv : services) (query : string -> result pyval) : services :=
  mkservices (str sv) (now sv) query (chat_postMessage sv).

(** The process environment holds the four values of [cfg], none empty. *)
Definition environment_of (getenv : string -> option string) (cfg : config) : Prop :=
  getenv "NOTION_TOKEN" = Some (NOTION_TOKEN cfg) /\
  getenv "SLACK_BOT_TOKEN" = Some (SLACK_BOT_TOKEN cfg) /\
  getenv "SLACK_CHANNEL_ID" = Some (SLACK_CHANNEL_ID cfg) /\
  getenv "NOTION_DATABASE_ID" = Some (NOTION_DATABASE_ID cfg) /\
  NOTION_TOKEN cfg ≠ "" /\ SLACK_BOT_TOKEN cfg ≠ "" /\
  SLACK_CHANNEL_ID cfg ≠ "" /\ NOTION_DATABASE_ID cfg ≠ "".

Definition demo_getenv (name : string) : option string :=
  if String.eqb name "NOTION_TOKEN" then Some "secret_n"
  else if String.eqb name "SLACK_BOT_TOKEN" then Some "xoxb-s"
  else if String.eqb name "SLACK_CHANNEL_ID" then Some "C012345"
  else if String.eqb name "NOTION_DATABASE_ID" then Some "db-1"
  else None.

(** ** The scenarios of the specification *)

Definition date_prop (start : string) : pyval :=
  PDict (<[ "type" := PStr "date" ]> {[ "date" := PDict {[ "start" := PStr start ]} ]}).

Definition title_prop (plain_text : string) : pyval :=
  PDict (<[ "type" := PStr "title" ]>
           {[ "title" := PList [PDict {[ "plain_text" := PStr plain_text ]}] ]}).

Definition people_prop (name : string) : pyval :=
  PDict (<[ "type" := PStr "people" ]>
           {[ "people" := PList [PDict {[ "name" := PStr name ]}] ]}).

Definition record (page_id title author : string) (dates : list (string * string)) : pyval :=
  PDict (<[ "id" := PStr page_id ]>
    {[ "properties" :=
         PDict (<[ "title" := title_prop title ]>
                  (<[ "author" := people_prop author ]>
                     (list_to_map (prod_map id date_prop <$> dates)))) ]}).

(** The clock reads 2024-02-28, so tomorrow is 2024-02-29. *)
Definition record_A : pyval :=
  record "a" "Post A" "Alice" [("first_draft_date", "2024-02-29")].
Definition record_B : pyval := record "b" "Post B" "Bob" [].
Definition record_C : pyval :=
  record "c" "Post C" "Carol"
    [("publishing_date", "2024-02-29"); ("ready_by_date", "2024-03-01")].
Definition record_bad : pyval :=
  record "x" "Post X" "Xavier"
    [("first_draft_date", "2024-02-29"); ("ready_by_date", "2024-13-40");
     ("publishing_date", "2024-02-29")].

Definition response_of (pages : list pyval) : gmap string pyval :=
  <[ "results" := PList pages ]> {[ "has_more" := PBool false ]}.

Definition reminder (author title stage : string) : post :=
  mkpost "C012345"
    (author +:+ " - Your post '" +:+ title +:+ "', has the " +:+ stage +:+
     " date coming up tomorrow - please ensure that your content is ready and reviewed as per the right stage.").

(** ** Definitions for the further properties *)

(** A number below 100 without zero padding, in front of [rest]. *)
Definition short_digits (n : Z) (rest : string) : string :=
  if (n <? 10)%Z then String (digit_char n) rest else two_digits n rest.

(** The date string of a calendar date with month and day not padded, as
    in [2024-3-5]. *)
Definition unpadded_date_string (d : date) : string :=
  two_digits (year d / 100) (two_digits (year d mod 100)
    (String "-" (short_digits (month d) (String "-" (short_digits (day d) ""))))).

(** The last day the calendar has. *)
Definition last_day : date := mkdate 9999 12 31.


(** The environment of the examples with the channel set to nothing. *)
Definition getenv_empty_channel (name : string) : option string :=
  if String.eqb name "SLACK_CHANNEL_ID" then Some "" else demo_getenv name.


(** ** The records and reminders of a run, from the three milestones *)

(** The three milestones in the order they are checked: the stage label
    and the property that holds the date. *)
Definition milestones : list (string * string) :=
  [("first draft", "first_draft_date"); ("final draft", "ready_by_date");
   ("published version", "publishing_date")].

(** The date of a milestone can be extracted and passes the rule. *)
Definition milestone_due (now : datetime) (properties : pyval) (m : string * string) : bool :=
  match get_date_property properties m.2 with
  | Ok date_str => passes_rule now date_str
  | Raise _ => false
  end.

(** The date of a milestone can be extracted and the rule evaluated on
    it. *)
Definition milestone_readable (now : datetime) (properties : pyval) (m : string * string)
    : bool :=
  match get_date_property properties m.2 with
  | Ok date_str => is_ok (check_date_proximity now date_str)
  | Raise _ => false
  end.

(** A record that can be processed: it has properties to read, title and
    author can be extracted, and each of the three milestone dates can be
    extracted and checked. *)
Definition record_processable (now : datetime) (page : pyval) : bool :=
  match py_get page "properties" (PDict ∅) with
  | Ok properties =>
      is_ok (get_page_title properties) && is_ok (get_page_author_mention properties) &&
      forallb (milestone_readable now properties) milestones
  | Raise _ => false
  end.

(** The reminders a record calls for: one per milestone whose date passes
    the rule, in the order of [milestones], addressed with the record's
    author and title. *)
Definition record_reminders (cfg : config) (sv : services) (page : pyval) : list post :=
  match py_get page "properties" (PDict ∅) with
  | Ok properties =>
      match get_page_title properties, get_page_author_mention properties with
      | Ok title, Ok author_mention =>
          stage_post cfg sv title author_mention <$>
            (List.filter (milestone_due (now sv) properties) milestones).*1
      | _, _ => []
      end
  | Raise _ => []
  end.

(** A record whose ready-by date is the empty string, between two dates
    that are due. *)
Definition record_empty_date : pyval :=
  record "e" "Post E" "Eve"
    [("first_draft_date", "2024-02-29"); ("ready_by_date", "");
     ("publishing_date", "2024-02-29")].

(** A sink whose rejection carries the plain mapping of an answer that was
    not JSON. *)
Definition sink_garbled : list post -> post -> result unit :=
  fun _ _ =>
    Raise (SlackApiError
             (ResponseDict (<[ "status" := PInt 502 ]> {[ "body" := PStr "Bad Gateway" ]}))).

(** The properties of a record, where it has them. *)
Definition properties_of (page : pyval) : pyval :=
  match py_get page "properties" (PDict ∅) with
  | Ok properties => properties
  | Raise _ => PNone
  end.

(** The three-record scenario against a sink that cannot be reached. *)
Definition run_sink_unreachable : result unit * state :=
  main demo_config
    (demo_services (Ok (PDict (response_of [record_A; record_B; record_C])))
       sink_unreachable)
    empty_state.

(** A run over a record whose ready-by date is the empty string. *)
Definition run_empty_date : result unit * state :=
  main demo_config
    (demo_services (Ok (PDict (response_of [record_A; record_empty_date; record_C])))
       sink_accepts)
    empty_state.

(** * Properties *)

(** ** The model on examples *)

Example get_page_title_foo :
  get_page_title
    (PDict {[ "title" := PDict (<[ "type" := PStr "title" ]>
               {[ "title" := PList [PDict {[ "plain_text" := PStr "Foo" ]}] ]}) ]})
  = Ok (PStr "Foo").
Proof. vm_compute. reflexivity. Qed.

Example strptime_ex1 : strptime "2024-02-29" = Ok (mkdatetime (mkdate 2024 2 29) 0).
Proof. reflexivity. Qed.
Example strptime_ex2 : strptime "2024-13-40" = Raise ValueError.
Proof. reflexivity. Qed.
Example strptime_ex3 : strptime "2024-1-5" = Ok (mkdatetime (mkdate 2024 1 5) 0).
Proof. reflexivity. Qed.
Example strptime_ex4 : strptime "2023-02-29" = Raise ValueError.
Proof. reflexivity. Qed.
Example strptime_ex5 : strptime "2024-10-35" = Raise ValueError.
Proof. reflexivity. Qed.
Example strptime_ex6 : strptime "0000-01-01" = Raise ValueError.
Proof. reflexivity. Qed.
Example strptime_ex7 : strptime "2024-01- 5" = Ok (mkdatetime (mkdate 2024 1 5) 0).
Proof. reflexivity. Qed.

(** ** Field extraction *)

Lemma py_eq_str_true v lit : py_eq_str v lit = true <-> v = PStr lit.
Proof.
  destruct v; simpl; try (split; [discriminate | intros [=]]).
  rewrite String.eqb_eq. split; [intros -> | intros [=]]; congruence.
Qed.

Lemma py_eq_str_refl lit : py_eq_str (PStr lit) lit = true.
Proof. now apply py_eq_str_true. Qed.

Lemma py_eq_str_lookup (p : gmap string pyval) lit :
  p !! "type" ≠ Some (PStr lit) -> py_eq_str (default PNone (p !! "type")) lit = false.
Proof.
  intros Hne. destruct (py_eq_str _ lit) eqn:E; [|reflexivity].
  apply py_eq_str_true in E. destruct (p !! "type"); simpl in E; congruence.
Qed.

(** What the three extraction functions compute on a mapping, one equation
    each, with the lookups left in view. *)
Lemma get_page_title_dict (props : gmap string pyval) :
  get_page_title (PDict props) =
  title_prop ← Ok (default (PDict ∅) (props !! "title"));
  ty ← py_get title_prop "type" PNone;
  if py_eq_str ty "title" then
    segs ← py_get title_prop "title" PNone;
    if truthy segs then
      segs' ← py_getitem_key title_prop "title";
      first ← py_getitem_0 segs';
      py_get first "plain_text" (PStr "Untitled")
    else Ok (PStr "Untitled")
  else Ok (PStr "Untitled").
Proof. reflexivity. Qed.

Lemma bind_Ok {A B} (a : A) (k : A -> result B) : (x ← Ok a; k x) = k a.
Proof. reflexivity. Qed.

Lemma py_get_dict (d : gmap string pyval) key dflt :
  py_get (PDict d) key dflt = Ok (default dflt (d !! key)).
Proof. reflexivity. Qed.

Lemma py_getitem_key_dict (d : gmap string pyval) key v :
  d !! key = Some v -> py_getitem_key (PDict d) key = Ok v.
Proof. intros H. unfold py_getitem_key. now rewrite H. Qed.

Ltac extraction_step :=
  repeat first
    [ rewrite bind_Ok
    | rewrite py_get_dict
    | rewrite lookup_empty
    | rewrite py_eq_str_refl
    | progress cbn [default from_option id truthy py_getitem_0] ].

Lemma first_field_entries_ok payload field dflt :
  truthy payload = true ->
  (entries_ok payload = true <-> exists v, first_field payload field dflt = Ok v).
Proof.
  intros Ht. unfold entries_ok. rewrite Ht. cbn [negb orb]. unfold first_field.
  destruct payload as [| b | z | s | l | d]; try discriminate Ht.
  - split; [discriminate | intros [v Hv]; discriminate Hv].
  - split; [discriminate | intros [v Hv]; discriminate Hv].
  - destruct s as [| c s]; [discriminate Ht |].
    split; [discriminate | intros [v Hv]; discriminate Hv].
  - destruct l as [| x l]; [discriminate Ht |].
    destruct x; (split; [try discriminate | intros [v Hv]; try discriminate Hv]).
    + intros _. eexists. reflexivity.
    + reflexivity.
  - split; [discriminate | intros [v Hv]; discriminate Hv].
Qed.

(** C5, as amended: on a property mapping, title extraction gives
    "Untitled" when the title property is absent, when it is a mapping
    whose declared type is not "title", and when its segment payload is
    empty or absent; with declared type "title" and a first segment that is
    a mapping it gives that segment's plain text, and "Untitled" when the
    segment has none.  It returns without raising exactly when the title
    property is absent or a mapping whose payload, under declared type
    "title", is empty or a list that starts with a mapping. *)
Theorem get_page_title_defaults (props : gmap string pyval) :
  (props !! "title" = None ->
     get_page_title (PDict props) = Ok (PStr "Untitled")) /\
  (forall p, props !! "title" = Some (PDict p) ->
     p !! "type" ≠ Some (PStr "title") ->
     get_page_title (PDict props) = Ok (PStr "Untitled")) /\
  (forall p, props !! "title" = Some (PDict p) ->
     p !! "type" = Some (PStr "title") ->
     truthy (default PNone (p !! "title")) = false ->
     get_page_title (PDict props) = Ok (PStr "Untitled")) /\
  (forall p seg rest text, props !! "title" = Some (PDict p) ->
     p !! "type" = Some (PStr "title") ->
     p !! "title" = Some (PList (PDict seg :: rest)) ->
     seg !! "plain_text" = Some text ->
     get_page_title (PDict props) = Ok text) /\
  (forall p seg rest, props !! "title" = Some (PDict p) ->
     p !! "type" = Some (PStr "title") ->
     p !! "title" = Some (PList (PDict seg :: rest)) ->
     seg !! "plain_text" = None ->
     get_page_title (PDict props) = Ok (PStr "Untitled")) /\
  (prop_shape_ok entries_ok "title" props "title" = true <->
     exists v, get_page_title (PDict props) = Ok v).
Proof.
  rewrite get_page_title_dict. unfold prop_shape_ok.
  repeat split.
  - intros ->. reflexivity.
  - intros p -> Hty. extraction_step. now rewrite (py_eq_str_lookup _ _ Hty).
  - intros p -> Hty Hfalsy. extraction_step. rewrite Hty. extraction_step.
    now rewrite Hfalsy.
  - intros p seg rest text -> Hty Hsegs Htext. extraction_step.
    rewrite Hty, Hsegs. extraction_step.
    rewrite (py_getitem_key_dict _ _ _ Hsegs). extraction_step.
    now rewrite Htext.
  - intros p seg rest -> Hty Hsegs Htext. extraction_step.
    rewrite Hty, Hsegs. extraction_step.
    rewrite (py_getitem_key_dict _ _ _ Hsegs). extraction_step.
    now rewrite Htext.
  - destruct (props !! "title") as [tp |]; [| intros _; eexists; reflexivity].
    destruct tp as [| b | z | s | l | p]; try discriminate.
    extraction_step.
    destruct (py_eq_str _ "title"); [| intros _; eexists; reflexivity].
    extraction_step.
    destruct (truthy (default PNone (p !! "title"))) eqn:Ht.
    + intros Hok. destruct (p !! "title") as [segs |] eqn:Hsegs; [| discriminate Ht].
      rewrite (py_getitem_key_dict _ _ _ Hsegs), bind_Ok.
      now apply (first_field_entries_ok segs "plain_text" (PStr "Untitled")).
    + intros _. eexists. reflexivity.
  - destruct (props !! "title") as [tp |]; [| reflexivity].
    destruct tp as [| b | z | s | l | p]; try (intros [v Hv]; discriminate Hv).
    extraction_step.
    destruct (py_eq_str _ "title"); [| reflexivity].
    extraction_step.
    destruct (truthy (default PNone (p !! "title"))) eqn:Ht.
    + destruct (p !! "title") as [segs |] eqn:Hsegs; [| discriminate Ht].
      rewrite (py_getitem_key_dict _ _ _ Hsegs), bind_Ok. cbn [default from_option id] in *.
      intros Hv. now apply (first_field_entries_ok segs "plain_text" (PStr "Untitled")).
    + intros _. unfold entries_ok. now rewrite Ht.
Qed.

Lemma get_page_title_defaults_witness :
  get_page_title (PDict title_foo_props) = Ok (PStr "Foo").
Proof.
  eapply (proj1 (proj2 (proj2 (proj2 (get_page_title_defaults title_foo_props)))));
    vm_compute; reflexivity.
Defined.

(** C5 as stated fails: a title property that is JSON [null], and a title
    payload whose first segment is a bare string, both make the extraction
    raise, so it is not total on property mappings. *)
Lemma get_page_title_raises :
  get_page_title (PDict {[ "title" := PNone ]}) = Raise AttributeError /\
  get_page_title
    (PDict {[ "title" := PDict (<[ "type" := PStr "title" ]>
                {[ "title" := PList [PStr "Foo"] ]}) ]}) = Raise AttributeError /\
  ~ (forall props : gmap string pyval, exists v, get_page_title (PDict props) = Ok v).
Proof.
  split; [vm_compute; reflexivity |]. split; [vm_compute; reflexivity |].
  intros Htotal. destruct (Htotal {[ "title" := PNone ]}) as [v Hv].
  vm_compute in Hv. discriminate Hv.
Qed.

Lemma get_page_author_mention_dict (props : gmap string pyval) :
  get_page_author_mention (PDict props) =
  author_prop ← Ok (default (PDict ∅) (props !! "author"));
  ty ← py_get author_prop "type" PNone;
  if py_eq_str ty "people" then
    people ← py_get author_prop "people" PNone;
    if truthy people then
      people' ← py_getitem_key author_prop "people";
      first ← py_getitem_0 people';
      py_get first "name" (PStr "Unknown Author")
    else Ok (PStr "Unknown Author")
  else Ok (PStr "Unknown Author").
Proof. reflexivity. Qed.

(** C6, as amended: on a property mapping, author extraction gives
    "Unknown Author" when the author property is absent, when it is a
    mapping whose declared type is not "people", and when its people
    payload is empty or absent; with declared type "people" and a first
    person that is a mapping it gives that person's name, and "Unknown
    Author" when the person has no name.  It returns without raising
    exactly when the author property is absent or a mapping whose payload,
    under declared type "people", is empty or a list that starts with a
    mapping. *)
Theorem get_page_author_mention_defaults (props : gmap string pyval) :
  (props !! "author" = None ->
     get_page_author_mention (PDict props) = Ok (PStr "Unknown Author")) /\
  (forall p, props !! "author" = Some (PDict p) ->
     p !! "type" ≠ Some (PStr "people") ->
     get_page_author_mention (PDict props) = Ok (PStr "Unknown Author")) /\
  (forall p, props !! "author" = Some (PDict p) ->
     p !! "type" = Some (PStr "people") ->
     truthy (default PNone (p !! "people")) = false ->
     get_page_author_mention (PDict props) = Ok (PStr "Unknown Author")) /\
  (forall p person rest name, props !! "author" = Some (PDict p) ->
     p !! "type" = Some (PStr "people") ->
     p !! "people" = Some (PList (PDict person :: rest)) ->
     person !! "name" = Some name ->
     get_page_author_mention (PDict props) = Ok name) /\
  (forall p person rest, props !! "author" = Some (PDict p) ->
     p !! "type" = Some (PStr "people") ->
     p !! "people" = Some (PList (PDict person :: rest)) ->
     person !! "name" = None ->
     get_page_author_mention (PDict props) = Ok (PStr "Unknown Author")) /\
  (prop_shape_ok entries_ok "people" props "author" = true <->
     exists v, get_page_author_mention (PDict props) = Ok v).
Proof.
  rewrite get_page_author_mention_dict. unfold prop_shape_ok.
  split; [| split; [| split; [| split; [| split; [| split]]]]].
  - intros ->. reflexivity.
  - intros p -> Hty. extraction_step. now rewrite (py_eq_str_lookup _ _ Hty).
  - intros p -> Hty Hfalsy. extraction_step. rewrite Hty. extraction_step.
    now rewrite Hfalsy.
  - intros p person rest name -> Hty Hpeople Hname. extraction_step.
    rewrite Hty, Hpeople. extraction_step.
    rewrite (py_getitem_key_dict _ _ _ Hpeople). extraction_step.
    now rewrite Hname.
  - intros p person rest -> Hty Hpeople Hname. extraction_step.
    rewrite Hty, Hpeople. extraction_step.
    rewrite (py_getitem_key_dict _ _ _ Hpeople). extraction_step.
    now rewrite Hname.
  - case_eq (props !! "author"); [| intros _ _; eexists; reflexivity].
    intros [| b | z | s | l | p] _; try discriminate.
    extraction_step.
    case_eq (py_eq_str (default PNone (p !! "type")) "people");
      [| intros _ _; eexists; reflexivity].
    intros _. extraction_step.
    case_eq (truthy (default PNone (p !! "people"))); [| intros _ _; eexists; reflexivity].
    intros Ht Hok. destruct (p !! "people") as [people |] eqn:Hpeople; [| discriminate Ht].
    rewrite (py_getitem_key_dict _ _ _ Hpeople), bind_Ok.
    now apply (first_field_entries_ok people "name" (PStr "Unknown Author")).
  - case_eq (props !! "author"); [| reflexivity].
    intros [| b | z | s | l | p] _; try (intros [v Hv]; discriminate Hv).
    extraction_step.
    case_eq (py_eq_str (default PNone (p !! "type")) "people"); [| reflexivity].
    intros _. extraction_step.
    case_eq (truthy (default PNone (p !! "people")));
      [| intros Ht _; unfold entries_ok; now rewrite Ht].
    intros Ht. destruct (p !! "people") as [people |] eqn:Hpeople; [| discriminate Ht].
    rewrite (py_getitem_key_dict _ _ _ Hpeople), bind_Ok. cbn [default from_option id] in *.
    intros Hv. now apply (first_field_entries_ok people "name" (PStr "Unknown Author")).
Qed.

Lemma get_page_author_mention_defaults_witness :
  get_page_author_mention (PDict author_alice_props) = Ok (PStr "Alice").
Proof.
  eapply (proj1 (proj2 (proj2 (proj2 (get_page_author_mention_defaults author_alice_props)))));
    vm_compute; reflexivity.
Defined.

(** C6 as stated fails: an author property that is JSON [null], and a
    people payload whose first entry is a bare string, both make the
    extraction raise. *)
Lemma get_page_author_mention_raises :
  get_page_author_mention (PDict {[ "author" := PNone ]}) = Raise AttributeError /\
  get_page_author_mention
    (PDict {[ "author" := PDict (<[ "type" := PStr "people" ]>
                {[ "people" := PList [PStr "Alice"] ]}) ]}) = Raise AttributeError /\
  ~ (forall props : gmap string pyval,
       exists v, get_page_author_mention (PDict props) = Ok v).
Proof.
  split; [vm_compute; reflexivity |]. split; [vm_compute; reflexivity |].
  intros Htotal. destruct (Htotal {[ "author" := PNone ]}) as [v Hv].
  vm_compute in Hv. discriminate Hv.
Qed.

Lemma get_date_property_dict (props : gmap string pyval) prop_name :
  get_date_property (PDict props) prop_name =
  date_prop ← Ok (default (PDict ∅) (props !! prop_name));
  ty ← py_get date_prop "type" PNone;
  if py_eq_str ty "date" then
    date ← py_get date_prop "date" PNone;
    if truthy date then
      date' ← py_getitem_key date_prop "date";
      py_get date' "start" PNone
    else Ok PNone
  else Ok PNone.
Proof. reflexivity. Qed.

Lemma truthy_dict_empty (d : gmap string pyval) :
  truthy (PDict d) = false -> d = ∅.
Proof.
  cbn [truthy]. intros H. apply map_size_empty_iff.
  destruct (size d); [reflexivity | discriminate H].
Qed.

(** C7, as amended: on a property mapping and any key, date extraction
    gives [None] when the property is absent, when it is a mapping whose
    declared type is not "date", and when its date object is empty or
    absent; with declared type "date" and a date object that is a mapping
    it gives what that object holds under "start" ([None] when it holds
    nothing there), whatever it holds under "end".  It returns without
    raising exactly when the property is absent or a mapping whose payload,
    under declared type "date", is empty or a mapping. *)
Theorem get_date_property_defaults (props : gmap string pyval) (prop_name : string) :
  (props !! prop_name = None ->
     get_date_property (PDict props) prop_name = Ok PNone) /\
  (forall p, props !! prop_name = Some (PDict p) ->
     p !! "type" ≠ Some (PStr "date") ->
     get_date_property (PDict props) prop_name = Ok PNone) /\
  (forall p, props !! prop_name = Some (PDict p) ->
     p !! "type" = Some (PStr "date") ->
     truthy (default PNone (p !! "date")) = false ->
     get_date_property (PDict props) prop_name = Ok PNone) /\
  (forall p date, props !! prop_name = Some (PDict p) ->
     p !! "type" = Some (PStr "date") ->
     p !! "date" = Some (PDict date) ->
     get_date_property (PDict props) prop_name = Ok (default PNone (date !! "start"))) /\
  (forall p date e, props !! prop_name = Some (PDict p) ->
     p !! "type" = Some (PStr "date") ->
     p !! "date" = Some (PDict date) ->
     get_date_property (PDict (<[prop_name := PDict (<["date" := PDict (<["end" := e]> date)]> p)]> props))
       prop_name
     = get_date_property (PDict props) prop_name) /\
  (prop_shape_ok object_ok "date" props prop_name = true <->
     exists v, get_date_property (PDict props) prop_name = Ok v).
Proof.
  assert (Hstart : forall p date, props !! prop_name = Some (PDict p) ->
     p !! "type" = Some (PStr "date") ->
     p !! "date" = Some (PDict date) ->
     get_date_property (PDict props) prop_name = Ok (default PNone (date !! "start"))).
  { intros p date Hp Hty Hdate. rewrite get_date_property_dict, Hp. extraction_step.
    rewrite Hty, Hdate. extraction_step.
    case_eq (truthy (PDict date)); intros Ht.
    - cbn [truthy] in Ht. rewrite Ht.
      rewrite (py_getitem_key_dict _ _ _ Hdate). now extraction_step.
    - cbn [truthy] in Ht. rewrite Ht.
      apply truthy_dict_empty in Ht. subst date. now rewrite lookup_empty. }
  split; [| split; [| split; [| split; [| split; [| split]]]]].
  - rewrite get_date_property_dict. intros ->. reflexivity.
  - rewrite get_date_property_dict. intros p -> Hty. extraction_step.
    now rewrite (py_eq_str_lookup _ _ Hty).
  - rewrite get_date_property_dict. intros p -> Hty Hfalsy. extraction_step.
    rewrite Hty. extraction_step. now rewrite Hfalsy.
  - exact Hstart.
  - intros p date e Hp Hty Hdate. rewrite (Hstart p date Hp Hty Hdate).
    rewrite get_date_property_dict, lookup_insert_eq. extraction_step.
    rewrite lookup_insert_ne by discriminate. rewrite Hty. extraction_step.
    rewrite lookup_insert_eq. extraction_step.
    assert (Hsize : (size (<["end" := e]> date) =? 0)%nat = false).
    { apply Nat.eqb_neq. intros Hz. apply map_size_empty_iff in Hz.
      now apply insert_non_empty in Hz. }
    rewrite Hsize. cbn [negb].
    rewrite (py_getitem_key_dict _ "date" (PDict (<["end" := e]> date)))
      by apply lookup_insert_eq.
    extraction_step. now rewrite lookup_insert_ne by discriminate.
  - rewrite get_date_property_dict. unfold prop_shape_ok.
    case_eq (props !! prop_name); [| intros _ _; eexists; reflexivity].
    intros [| b | z | s | l | p] _; try discriminate.
    extraction_step.
    case_eq (py_eq_str (default PNone (p !! "type")) "date");
      [| intros _ _; eexists; reflexivity].
    intros _. extraction_step.
    case_eq (truthy (default PNone (p !! "date"))); [| intros _ _; eexists; reflexivity].
    intros Ht. unfold object_ok. rewrite Ht. cbn [negb orb].
    destruct (p !! "date") as [date |] eqn:Hdate; [| discriminate Ht].
    rewrite (py_getitem_key_dict _ _ _ Hdate), bind_Ok. cbn [default from_option id].
    destruct date; try discriminate. intros _. eexists. reflexivity.
  - rewrite get_date_property_dict. unfold prop_shape_ok.
    case_eq (props !! prop_name); [| reflexivity].
    intros [| b | z | s | l | p] _; try (intros [v Hv]; discriminate Hv).
    extraction_step.
    case_eq (py_eq_str (default PNone (p !! "type")) "date"); [| reflexivity].
    intros _. extraction_step.
    case_eq (truthy (default PNone (p !! "date")));
      [| intros Ht _; unfold object_ok; now rewrite Ht].
    intros Ht. unfold object_ok. rewrite Ht. cbn [negb orb].
    destruct (p !! "date") as [date |] eqn:Hdate; [| discriminate Ht].
    rewrite (py_getitem_key_dict _ _ _ Hdate), bind_Ok. cbn [default from_option id].
    destruct date; try (intros [v Hv]; discriminate Hv). reflexivity.
Qed.

Lemma get_date_property_defaults_witness :
  get_date_property (PDict ready_by_props) NOTION_READY_BY_DATE_PROP
  = Ok (PStr "2024-05-01").
Proof.
  refine (eq_trans
    (proj1 (proj2 (proj2 (proj2
       (get_date_property_defaults ready_by_props NOTION_READY_BY_DATE_PROP)))) _ _ _ _ _) _);
    vm_compute; reflexivity.
Defined.

(** C7 as stated fails: a property that is JSON [null], and a date payload
    that is a bare string instead of an object, both make the extraction
    raise. *)
Lemma get_date_property_raises :
  get_date_property (PDict {[ "ready_by_date" := PNone ]}) "ready_by_date"
    = Raise AttributeError /\
  get_date_property
    (PDict {[ "ready_by_date" := PDict (<[ "type" := PStr "date" ]>
                {[ "date" := PStr "2024-05-01" ]}) ]}) "ready_by_date"
    = Raise AttributeError /\
  ~ (forall (props : gmap string pyval) (prop_name : string),
       exists v, get_date_property (PDict props) prop_name = Ok v).
Proof.
  split; [vm_compute; reflexivity |]. split; [vm_compute; reflexivity |].
  intros Htotal.
  destruct (Htotal {[ "ready_by_date" := PNone ]} "ready_by_date") as [v Hv].
  vm_compute in Hv. discriminate Hv.
Qed.

(** ** The calendar *)

Lemma date_eqb_eq (a b : date) : date_eqb a b = true <-> a = b.
Proof.
  destruct a as [y1 m1 d1], b as [y2 m2 d2]. unfold date_eqb. cbn [year month day].
  rewrite !andb_true_iff, !Z.eqb_eq.
  split; [intros [[-> ->] ->]; reflexivity | intros [= -> -> ->]; auto].
Qed.

Lemma date_eqb_neq (a b : date) : date_eqb a b = false <-> a ≠ b.
Proof.
  rewrite <- date_eqb_eq. destruct (date_eqb a b); split; congruence.
Qed.

Lemma valid_date_bounds (d : date) :
  valid_date d = true <->
  1 <= year d <= 9999 /\ 1 <= month d <= 12 /\
  1 <= day d <= days_in_month (year d) (month d).
Proof.
  unfold valid_date, MINYEAR, MAXYEAR. rewrite !andb_true_iff, !Z.leb_le. lia.
Qed.

Lemma days_in_month_bounds (y m : Z) : 28 <= days_in_month y m <= 31.
Proof.
  unfold days_in_month.
  destruct (m =? 2)%Z; [destruct (is_leap y); lia |].
  destruct ((m =? 4)%Z || (m =? 6)%Z || (m =? 9)%Z || (m =? 11)%Z); lia.
Qed.

Lemma days_before_month_succ (y m : Z) :
  1 <= m -> days_before_month y (m + 1) = days_before_month y m + days_in_month y m.
Proof.
  intros Hm. unfold days_before_month.
  replace (Z.to_nat (m + 1 - 1)) with (S (Z.to_nat (m - 1))) by lia.
  cbn [days_before_month_aux]. do 2 f_equal. lia.
Qed.

Lemma days_before_month_1 (y : Z) : days_before_month y 1 = 0.
Proof. reflexivity. Qed.

Lemma year_length (y : Z) :
  days_before_year (y + 1) = days_before_year y + days_before_month y 12 + 31.
Proof.
  assert (H12 : days_before_month y 12 = if is_leap y then 335 else 334).
  { unfold days_before_month. change (Z.to_nat (12 - 1)) with 11%nat.
    cbn [days_before_month_aux]. unfold days_in_month at 2.
    change (Z.of_nat 2 =? 2)%Z with true. cbn iota.
    destruct (is_leap y); reflexivity. }
  rewrite H12. unfold days_before_year, is_leap.
  replace (y + 1 - 1) with y by lia.
  destruct (y mod 4 =? 0)%Z eqn:E4; destruct (y mod 100 =? 0)%Z eqn:E100;
    destruct (y mod 400 =? 0)%Z eqn:E400; cbn [andb orb negb];
    rewrite ?Z.eqb_eq, ?Z.eqb_neq in *;
    Z.to_euclidean_division_equations; lia.
Qed.

(** [add_one_day] is the step from one ordinal to the next, and it stays
    inside the calendar. *)
Lemma add_one_day_toordinal (d d' : date) :
  valid_date d = true -> add_one_day d = Ok d' ->
  toordinal d' = toordinal d + 1 /\ valid_date d' = true.
Proof.
  destruct d as [y m dd]. rewrite !valid_date_bounds. cbn [year month day].
  intros (Hy & Hm & Hd). unfold add_one_day, MAXYEAR. cbn [year month day].
  destruct (dd <? days_in_month y m)%Z eqn:E1.
  - intros [= <-]. apply Z.ltb_lt in E1. unfold toordinal. cbn [year month day].
    split; lia.
  - apply Z.ltb_ge in E1. destruct (m <? 12)%Z eqn:E2.
    + intros [= <-]. apply Z.ltb_lt in E2. unfold toordinal. cbn [year month day].
      rewrite days_before_month_succ by lia.
      pose proof (days_in_month_bounds y (m + 1)). split; lia.
    + apply Z.ltb_ge in E2. destruct (y <? 9999)%Z eqn:E3; [| discriminate].
      intros [= <-]. apply Z.ltb_lt in E3. unfold toordinal. cbn [year month day].
      assert (m = 12) by lia. subst m.
      assert (dd = 31) by (change (days_in_month y 12) with 31 in *; lia). subst dd.
      rewrite year_length, days_before_month_1.
      pose proof (days_in_month_bounds (y + 1) 1). split; lia.
Qed.

Lemma add_one_day_neq (d d' : date) :
  valid_date d = true -> add_one_day d = Ok d' -> d' ≠ d.
Proof.
  intros Hv Hd Heq. destruct (add_one_day_toordinal d d' Hv Hd) as [Hord _].
  rewrite Heq in Hord. lia.
Qed.

Example iso_date_string_ex : iso_date_string (mkdate 2024 2 9) = "2024-02-09".
Proof. reflexivity. Qed.

(** ** Date strings *)

(** Case split of a goal on the values an integer can take in a range
    [lo..hi]; the lower bound moves up with every value set aside. *)
Ltac split_range x lo hi :=
  let Hne := fresh "Hne" in
  destruct (Z.eq_dec x lo) as [-> | Hne];
  [ | first
      [ exfalso; lia
      | let lo' := eval compute in (lo + 1) in
        assert (lo' <= x) by lia; clear Hne; split_range x lo' hi ] ].

Lemma digit_of_ascii_digit_char (k : Z) :
  0 <= k <= 9 -> digit_of_ascii (digit_char k) = Some k.
Proof. intros Hk. split_range k 0 9; reflexivity. Qed.

Lemma re_digit_digit_char (lo hi k : Z) (rest : string) :
  0 <= k <= 9 ->
  re_digit lo hi (String (digit_char k) rest) =
  if (lo <=? k)%Z && (k <=? hi)%Z then [(k, rest)] else [].
Proof.
  intros Hk. unfold re_digit. now rewrite digit_of_ascii_digit_char.
Qed.

Lemma re_digit2_two_digits (n : Z) (rest : string) :
  0 <= n <= 99 -> re_digit2 0 9 0 9 (two_digits n rest) = [(n, rest)].
Proof.
  intros Hn. unfold re_digit2, two_digits.
  assert (0 <= n / 10 <= 9) by (Z.to_euclidean_division_equations; lia).
  assert (0 <= n mod 10 <= 9) by (Z.to_euclidean_division_equations; lia).
  rewrite re_digit_digit_char by assumption.
  replace ((0 <=? n / 10)%Z && (n / 10 <=? 9)%Z) with true
    by (symmetry; apply andb_true_iff; rewrite !Z.leb_le; lia).
  cbn [mbind list_bind app]. rewrite re_digit_digit_char by assumption.
  replace ((0 <=? n mod 10)%Z && (n mod 10 <=? 9)%Z) with true
    by (symmetry; apply andb_true_iff; rewrite !Z.leb_le; lia).
  cbn [mbind list_bind app]. do 2 f_equal.
  Z.to_euclidean_division_equations; lia.
Qed.

Lemma re_Y_year (y : Z) (rest : string) :
  0 <= y <= 9999 ->
  re_Y (two_digits (y / 100) (two_digits (y mod 100) rest)) = [(y, rest)].
Proof.
  intros Hy. unfold re_Y.
  rewrite re_digit2_two_digits by (Z.to_euclidean_division_equations; lia).
  cbn [mbind list_bind app].
  rewrite re_digit2_two_digits by (Z.to_euclidean_division_equations; lia).
  cbn [mbind list_bind app]. do 2 f_equal.
  Z.to_euclidean_division_equations; lia.
Qed.

Lemma head_bind {A B} (l : list A) (k : A -> list B) (a : A) (b : B) :
  head l = Some a -> head (k a) = Some b -> head (l ≫= k) = Some b.
Proof.
  destruct l as [| x l]; [discriminate |]. intros [= ->].
  cbn [mbind list_bind]. destruct (k a); [discriminate |]. intros [= ->]. reflexivity.
Qed.

Lemma re_m_two_digits (m : Z) (rest : string) :
  1 <= m <= 12 -> head (re_m (two_digits m rest)) = Some (m, rest).
Proof. intros Hm. split_range m 1 12; reflexivity. Qed.

Lemma re_d_two_digits (d : Z) (rest : string) :
  1 <= d <= 31 -> head (re_d (two_digits d rest)) = Some (d, rest).
Proof. intros Hd. split_range d 1 31; reflexivity. Qed.

(** The regular expression reads a well-formed date string back as its
    three numbers, with nothing left over. *)
Lemma format_regex_match_iso (y m d : Z) :
  0 <= y <= 9999 -> 1 <= m <= 12 -> 1 <= d <= 31 ->
  format_regex_match (iso_date_string (mkdate y m d)) = Some (y, m, d, "").
Proof.
  intros Hy Hm Hd. unfold format_regex_match, iso_date_string. cbn [year month day].
  eapply head_bind; [now rewrite re_Y_year |]. cbn beta iota.
  eapply head_bind; [reflexivity |].
  eapply head_bind; [now apply re_m_two_digits |]. cbn beta iota.
  eapply head_bind; [reflexivity |].
  eapply head_bind; [now apply re_d_two_digits |]. reflexivity.
Qed.

Lemma strptime_iso (d : date) :
  valid_date d = true -> strptime (iso_date_string d) = Ok (mkdatetime d 0).
Proof.
  intros Hv. destruct d as [y m dd]. unfold strptime.
  pose proof (proj1 (valid_date_bounds _) Hv) as (Hy & Hm & Hd). cbn [year month day] in *.
  pose proof (days_in_month_bounds y m).
  rewrite format_regex_match_iso by lia.
  cbn [String.eqb]. now rewrite Hv.
Qed.

Lemma strptime_raises (s : string) (e : exn) :
  strptime s = Raise e -> e = ValueError.
Proof.
  unfold strptime. destruct (format_regex_match s) as [[[[y m] d] rest] |];
    [| congruence].
  destruct (String.eqb rest ""); [| congruence].
  destruct (valid_date _); congruence.
Qed.

(** ** The proximity rule *)

Lemma check_date_proximity_falsy (now : datetime) (v : pyval) :
  truthy v = false -> check_date_proximity now v = Ok (PBool false).
Proof. intros Hv. unfold check_date_proximity. now rewrite Hv. Qed.

(** On a string the parser accepts, the rule compares the parsed date with
    the day after the clock's date. *)
Lemma check_date_proximity_parsed (now : datetime) (s : string) (dt : datetime)
    (tomorrow : date) :
  strptime s = Ok dt ->
  add_one_day (dt_date now) = Ok tomorrow ->
  check_date_proximity now (PStr s) = Ok (PBool (date_eqb (dt_date dt) tomorrow)).
Proof.
  intros Hs Ht. unfold check_date_proximity.
  assert (Hne : truthy (PStr s) = true).
  { destruct s; [discriminate Hs | reflexivity]. }
  rewrite Hne. cbn [negb]. rewrite Hs. cbn [mbind result_bind].
  unfold datetime_add_one_day. rewrite Ht. reflexivity.
Qed.

Lemma check_date_proximity_unparseable (now : datetime) (s : string) (e : exn) :
  s ≠ "" -> strptime s = Raise e ->
  check_date_proximity now (PStr s) = Raise ValueError.
Proof.
  intros Hne Hs. unfold check_date_proximity.
  assert (Ht : truthy (PStr s) = true) by (destruct s; [congruence | reflexivity]).
  rewrite Ht. cbn [negb]. rewrite Hs. cbn [mbind result_bind].
  now rewrite (strptime_raises s e Hs).
Qed.

(** C1: for a calendar date [d], the rule applied to the well-formed
    string of [d] answers whether [d] is the day after the clock's date,
    whatever the clock's time of day: true exactly for tomorrow, false for
    every other date, among them today, yesterday and the day after
    tomorrow. *)
Theorem check_date_proximity_iso (now : datetime) (tomorrow d : date) :
  valid_date (dt_date now) = true ->
  add_one_day (dt_date now) = Ok tomorrow ->
  valid_date d = true ->
  check_date_proximity now (PStr (iso_date_string d)) = Ok (PBool (date_eqb d tomorrow)) /\
  (check_date_proximity now (PStr (iso_date_string d)) = Ok (PBool true) <-> d = tomorrow) /\
  (d ≠ tomorrow ->
     check_date_proximity now (PStr (iso_date_string d)) = Ok (PBool false)) /\
  check_date_proximity now (PStr (iso_date_string (dt_date now))) = Ok (PBool false) /\
  (forall yesterday, valid_date yesterday = true ->
     add_one_day yesterday = Ok (dt_date now) ->
     check_date_proximity now (PStr (iso_date_string yesterday)) = Ok (PBool false)) /\
  (forall after, add_one_day tomorrow = Ok after ->
     check_date_proximity now (PStr (iso_date_string after)) = Ok (PBool false)) /\
  (forall time_of_day,
     check_date_proximity (mkdatetime (dt_date now) time_of_day) (PStr (iso_date_string d))
     = check_date_proximity now (PStr (iso_date_string d))).
Proof.
  intros Hnow Htom Hd.
  assert (Hrule : forall now' x, dt_date now' = dt_date now -> valid_date x = true ->
    check_date_proximity now' (PStr (iso_date_string x)) = Ok (PBool (date_eqb x tomorrow))).
  { intros now' x Hsame Hx.
    rewrite (check_date_proximity_parsed now' _ (mkdatetime x 0) tomorrow);
      [reflexivity | now apply strptime_iso | now rewrite Hsame]. }
  destruct (add_one_day_toordinal _ _ Hnow Htom) as [Hord Hvtom].
  split; [now apply Hrule |]. split; [| split; [| split; [| split; [| split]]]].
  - rewrite Hrule by easy. rewrite <- date_eqb_eq.
    split; [intros [= ->]; reflexivity | intros ->; reflexivity].
  - intros Hne. rewrite Hrule by easy. now apply date_eqb_neq in Hne as ->.
  - rewrite Hrule by easy.
    assert (Hne : dt_date now ≠ tomorrow) by (intros Heq; rewrite <- Heq in Hord; lia).
    now apply date_eqb_neq in Hne as ->.
  - intros yesterday Hy Hstep. rewrite Hrule by easy.
    destruct (add_one_day_toordinal _ _ Hy Hstep) as [Hord' _].
    assert (Hne : yesterday ≠ tomorrow) by (intros Heq; rewrite Heq in Hord'; lia).
    now apply date_eqb_neq in Hne as ->.
  - intros after Hstep.
    destruct (add_one_day_toordinal _ _ Hvtom Hstep) as [Hord' Hva].
    rewrite Hrule by easy.
    assert (Hne : after ≠ tomorrow) by (intros Heq; rewrite Heq in Hord'; lia).
    now apply date_eqb_neq in Hne as ->.
  - intros time_of_day. now rewrite !Hrule.
Qed.

Lemma check_date_proximity_iso_witness :
  check_date_proximity noon_2024_02_28 (PStr "2024-02-29") = Ok (PBool true) /\
  check_date_proximity noon_2024_02_28 (PStr "2024-03-01") = Ok (PBool false).
Proof.
  split.
  - exact (proj1 (check_date_proximity_iso noon_2024_02_28 (mkdate 2024 2 29)
                    (mkdate 2024 2 29) eq_refl eq_refl eq_refl)).
  - exact (proj1 (check_date_proximity_iso noon_2024_02_28 (mkdate 2024 2 29)
                    (mkdate 2024 3 1) eq_refl eq_refl eq_refl)).
Defined.

(** C3, as amended: absent input gives false without raising, and every
    present string other than the empty one that the parser does not
    accept raises [ValueError]; "not-a-date" and "2024-13-40" are such
    strings. *)
Theorem check_date_proximity_asymmetry (now : datetime) :
  check_date_proximity now PNone = Ok (PBool false) /\
  (forall s, s ≠ "" -> (forall dt, strptime s ≠ Ok dt) ->
     check_date_proximity now (PStr s) = Raise ValueError) /\
  check_date_proximity now (PStr "not-a-date") = Raise ValueError /\
  check_date_proximity now (PStr "2024-13-40") = Raise ValueError.
Proof.
  split; [reflexivity |]. split; [| split; reflexivity].
  intros s Hne Hs. destruct (strptime s) as [dt | e] eqn:E.
  - now destruct (Hs dt).
  - exact (check_date_proximity_unparseable now s e Hne E).
Qed.

Lemma check_date_proximity_asymmetry_witness :
  check_date_proximity noon_2024_02_28 (PStr "2024-02-30") = Raise ValueError.
Proof.
  apply (proj1 (proj2 (check_date_proximity_asymmetry noon_2024_02_28)));
    [discriminate | intros dt; vm_compute; discriminate].
Defined.

(** C3 as stated fails at the empty string: it is present, the parser
    does not accept it, and the rule returns false instead of raising. *)
Lemma check_date_proximity_empty_not_raised :
  strptime "" = Raise ValueError /\
  check_date_proximity noon_2024_02_28 (PStr "") = Ok (PBool false) /\
  ~ (forall now s, (forall dt, strptime s ≠ Ok dt) ->
       check_date_proximity now (PStr s) = Raise ValueError).
Proof.
  split; [reflexivity |]. split; [reflexivity |].
  intros Hall. specialize (Hall noon_2024_02_28 "").
  assert (Hno : forall dt, strptime "" ≠ Ok dt) by (intros dt; vm_compute; discriminate).
  specialize (Hall Hno). vm_compute in Hall. discriminate Hall.
Qed.

(** C10: the empty string takes the branch of absent input: whatever the
    clock, the rule returns false on it without raising, although the
    parser alone would reject it; the same holds for every value whose
    truth value is false. *)
Theorem check_date_proximity_empty_string (now : datetime) :
  check_date_proximity now (PStr "") = Ok (PBool false) /\
  strptime "" = Raise ValueError /\
  (forall v, truthy v = false -> check_date_proximity now v = Ok (PBool false)).
Proof.
  split; [reflexivity |]. split; [reflexivity |].
  intros v. apply check_date_proximity_falsy.
Qed.

Lemma check_date_proximity_empty_string_witness :
  check_date_proximity noon_2024_02_28 (PList []) = Ok (PBool false).
Proof.
  apply (proj2 (proj2 (check_date_proximity_empty_string noon_2024_02_28))).
  reflexivity.
Defined.

Lemma check_date_proximity_raises (now : datetime) (v : pyval) (e : exn) :
  check_date_proximity now v = Raise e ->
  e = ValueError \/ e = TypeError \/ e = OverflowError.
Proof.
  unfold check_date_proximity. destruct (truthy v); cbn [negb]; [| discriminate].
  assert (Hadd : forall dt e', datetime_add_one_day dt = Raise e' -> e' = OverflowError).
  { intros dt e'. unfold datetime_add_one_day, add_one_day.
    repeat match goal with |- context [if ?b then _ else _] => destruct b end;
      cbn [mbind result_bind]; congruence. }
  destruct v as [| b | z | s | l | d]; cbn [mbind result_bind];
    try (intros [= <-]; auto).
  destruct (strptime s) as [dt | e'] eqn:Hs; cbn [mbind result_bind].
  - destruct (datetime_add_one_day now) as [tm | e''] eqn:Ht; cbn [mbind result_bind];
      [discriminate |].
    intros [= <-]. right. right. exact (Hadd _ _ Ht).
  - intros [= <-]. left. exact (strptime_raises _ _ Hs).
Qed.

(** ** Notification dispatch *)

Lemma bind_logging {A} (r : log_record) (k : unit -> M A) (st : state) :
  (logging r ≫= k) st = k tt (mkstate (log st ++ [r]) (posts st)).
Proof. reflexivity. Qed.

Lemma bind_lift_Ok {A B} (a : A) (k : A -> M B) (st : state) :
  (lift (Ok a) ≫= k) st = k a st.
Proof. reflexivity. Qed.

Lemma bind_lift_Raise {A B} (e : exn) (k : A -> M B) (st : state) :
  (lift (Raise e) ≫= k) st = (Raise e, st).
Proof. reflexivity. Qed.

Lemma bind_M {A B} (m : M A) (k : A -> M B) (st : state) :
  (m ≫= k) st =
  match m st with
  | (Ok a, st') => k a st'
  | (Raise e, st') => (Raise e, st')
  end.
Proof. reflexivity. Qed.

Lemma send_slack_message_unfold cfg sv author_mention title stage st :
  send_slack_message cfg sv author_mention title stage st =
  let p := mkpost (SLACK_CHANNEL_ID cfg) (message sv author_mention title stage) in
  let log' := log st ++ [InfoSending (SLACK_CHANNEL_ID cfg) title stage] in
  let st' := mkstate log' (posts st ++ [p]) in
  match chat_postMessage sv (posts st) p with
  | Ok tt => (Ok tt, st')
  | Raise (SlackApiError response) =>
      match response_getitem response "error" with
      | Ok error => (Ok tt, mkstate (log' ++ [ErrorSlack error]) (posts st ++ [p]))
      | Raise e' => (Raise e', st')
      end
  | Raise e => (Raise e, st')
  end.
Proof.
  unfold send_slack_message, try_except. rewrite bind_logging.
  unfold slack_call. cbn [log posts].
  destruct (chat_postMessage sv (posts st) _) as [[] | []]; reflexivity.
Qed.

(** C8, as amended: dispatch makes exactly one request, to the
    configured channel, with the fixed-template text (spelled out when
    author and title are strings); a delivery that succeeds returns to the
    caller, and so does one the sink rejects with a [SlackApiError] whose
    response can be read at "error", the rejection being logged with that
    error code; when reading the response at "error" raises, that exception
    leaves the function from inside its handler; and an exception of any
    other class raised by the sink's client is not caught here and goes on
    to the caller. *)
Theorem send_slack_message_dispatch (cfg : config) (sv : services)
    (author_mention title : pyval) (stage : string) (st : state) :
  let p := mkpost (SLACK_CHANNEL_ID cfg) (message sv author_mention title stage) in
  let sending := InfoSending (SLACK_CHANNEL_ID cfg) title stage in
  posts (send_slack_message cfg sv author_mention title stage st).2 = posts st ++ [p] /\
  (forall author t, author_mention = PStr author -> title = PStr t ->
     text p = author +:+ " - Your post '" +:+ t +:+ "', has the " +:+ stage +:+
       " date coming up tomorrow - please ensure that your content is ready and reviewed as per the right stage.") /\
  (chat_postMessage sv (posts st) p = Ok tt ->
     send_slack_message cfg sv author_mention title stage st
     = (Ok tt, mkstate (log st ++ [sending]) (posts st ++ [p]))) /\
  (forall response error,
     chat_postMessage sv (posts st) p = Raise (SlackApiError response) ->
     response_getitem response "error" = Ok error ->
     send_slack_message cfg sv author_mention title stage st
     = (Ok tt, mkstate (log st ++ [sending; ErrorSlack error]) (posts st ++ [p]))) /\
  (forall response e',
     chat_postMessage sv (posts st) p = Raise (SlackApiError response) ->
     response_getitem response "error" = Raise e' ->
     send_slack_message cfg sv author_mention title stage st
     = (Raise e', mkstate (log st ++ [sending]) (posts st ++ [p]))) /\
  (forall e, chat_postMessage sv (posts st) p = Raise e ->
     (forall response, e ≠ SlackApiError response) ->
     send_slack_message cfg sv author_mention title stage st
     = (Raise e, mkstate (log st ++ [sending]) (posts st ++ [p]))).
Proof.
  intros p sending. rewrite send_slack_message_unfold. fold p. cbn zeta. fold sending.
  split; [| split; [| split; [| split; [| split]]]].
  - destruct (chat_postMessage sv (posts st) p) as [[] | []]; try reflexivity.
    destruct (response_getitem s "error"); reflexivity.
  - intros author t -> ->. reflexivity.
  - intros ->. reflexivity.
  - intros response error -> ->. now rewrite <- app_assoc.
  - intros response e' -> ->. reflexivity.
  - intros e -> Hother. destruct e; try reflexivity. now destruct (Hother s).
Qed.

Lemma send_slack_message_dispatch_witness :
  send_slack_message demo_config (demo_services (Ok PNone) sink_rejects)
    (PStr "Alice") (PStr "Foo") "first draft" empty_state
  = (Ok tt,
     mkstate [InfoSending "C012345" (PStr "Foo") "first draft";
              ErrorSlack (PStr "channel_not_found")]
       [mkpost "C012345"
          "Alice - Your post 'Foo', has the first draft date coming up tomorrow - please ensure that your content is ready and reviewed as per the right stage."]) /\
  send_slack_message demo_config (demo_services (Ok PNone) sink_garbled)
    (PStr "Alice") (PStr "Foo") "first draft" empty_state
  = (Raise KeyError,
     mkstate [InfoSending "C012345" (PStr "Foo") "first draft"]
       [mkpost "C012345"
          "Alice - Your post 'Foo', has the first draft date coming up tomorrow - please ensure that your content is ready and reviewed as per the right stage."]).
Proof.
  split.
  - exact (proj1 (proj2 (proj2 (proj2
      (send_slack_message_dispatch demo_config (demo_services (Ok PNone) sink_rejects)
         (PStr "Alice") (PStr "Foo") "first draft" empty_state))))
      (SlackResponse (<[ "ok" := PBool false ]> {[ "error" := PStr "channel_not_found" ]}))
      (PStr "channel_not_found") eq_refl eq_refl).
  - exact (proj1 (proj2 (proj2 (proj2 (proj2
      (send_slack_message_dispatch demo_config (demo_services (Ok PNone) sink_garbled)
         (PStr "Alice") (PStr "Foo") "first draft" empty_state)))))
      (ResponseDict (<[ "status" := PInt 502 ]> {[ "body" := PStr "Bad Gateway" ]}))
      KeyError eq_refl eq_refl).
Defined.

(** C8 as stated fails: when the sink's client raises an exception that
    is not a [SlackApiError], the dispatch raises it to its caller. *)
Lemma send_slack_message_propagates :
  (send_slack_message demo_config (demo_services (Ok PNone) sink_unreachable)
     (PStr "Alice") (PStr "Foo") "first draft" empty_state).1
  = Raise (OtherException "URLError").
Proof. reflexivity. Qed.

(** ** Orchestration *)

Lemma for_each_app {A S} (body : A -> S -> M S) (l1 l2 : list A) (s : S) (st : state) :
  for_each body (l1 ++ l2) s st =
  match for_each body l1 s st with
  | (Ok s', st') => for_each body l2 s' st'
  | (Raise e, st') => (Raise e, st')
  end.
Proof.
  revert s st. induction l1 as [| x l1 IH]; intros s st; [reflexivity |].
  cbn [app for_each]. rewrite !bind_M.
  destruct (body x s st) as [[s' | e] st']; [apply IH | reflexivity].
Qed.

Lemma send_slack_message_typed cfg sv author_mention title stage st :
  sink_typed sv ->
  exists lg, send_slack_message cfg sv author_mention title stage st =
    (Ok tt, mkstate (log st ++ lg)
              (posts st ++ [stage_post cfg sv title author_mention stage])).
Proof.
  intros Hsink. rewrite send_slack_message_unfold. cbn zeta. fold (stage_post cfg sv title author_mention stage).
  destruct (chat_postMessage sv (posts st) _) as [[] | e] eqn:Hcall.
  - eexists. reflexivity.
  - destruct (Hsink _ _ _ Hcall) as (response & error & -> & Herror). rewrite Herror.
    exists [InfoSending (SLACK_CHANNEL_ID cfg) title stage; ErrorSlack error].
    now rewrite <- app_assoc.
Qed.

(** The inner loop: it notifies the due stages in order, stops at the
    first date the rule raises on, and counts one per request made. *)
Lemma inner_loop cfg sv title author_mention entries n st :
  sink_typed sv ->
  exists lg,
    for_each (check_and_notify cfg sv title author_mention) entries n st =
    (match first_failure (now sv) entries with
     | None => Ok (n + Z.of_nat (List.length (due_before_failure (now sv) entries)))
     | Some e => Raise e
     end,
     mkstate (log st ++ lg)
       (posts st ++
          (stage_post cfg sv title author_mention <$> due_before_failure (now sv) entries))).
Proof.
  intros Hsink. revert n st.
  induction entries as [| [stage date_str] entries IH]; intros n st.
  - exists []. cbn. rewrite !app_nil_r, Z.add_0_r. now destruct st.
  - cbn [for_each first_failure due_before_failure]. rewrite bind_M.
    unfold check_and_notify at 1.
    destruct (check_date_proximity (now sv) date_str) as [due | e].
    + rewrite bind_lift_Ok. destruct (truthy due).
      * rewrite bind_logging, bind_M.
        destruct (send_slack_message_typed cfg sv author_mention title stage
                    (mkstate (log st ++ [InfoDeadline title stage date_str author_mention])
                       (posts st)) Hsink) as [lg1 Hsend].
        rewrite Hsend. cbn [log posts mret M_ret].
        destruct (IH (n + 1)
                    (mkstate ((log st ++ [InfoDeadline title stage date_str author_mention]) ++ lg1)
                       (posts st ++ [stage_post cfg sv title author_mention stage])))
          as [lg2 Hrest].
        rewrite Hrest. cbn [log posts].
        exists (([InfoDeadline title stage date_str author_mention] ++ lg1) ++ lg2).
        f_equal.
        -- destruct (first_failure (now sv) entries); [reflexivity |].
           f_equal. cbn [app Datatypes.length]. lia.
        -- f_equal; [now rewrite !app_assoc |].
           cbn [app fmap list_fmap]. now rewrite <- app_assoc.
      * cbn [mret M_ret app]. apply IH.
    + rewrite bind_lift_Raise. exists []. cbn [fmap list_fmap].
      rewrite !app_nil_r. now destruct st.
Qed.

Lemma py_get_Ok_dict v key dflt x :
  py_get v key dflt = Ok x -> exists d, v = PDict d.
Proof. destruct v; try discriminate. eauto. Qed.

(** One page: when its fields can be read, the page is counted and the
    inner loop decides the outcome; when they cannot, the exception leaves
    the loop body with nothing logged or posted. *)
Lemma process_page_fields cfg sv page p n st :
  sink_typed sv ->
  match page_fields page with
  | Ok (title, author_mention, entries) =>
      exists lg,
        process_page cfg sv page (p, n) st =
        (match first_failure (now sv) entries with
         | None => Ok (p + 1, n + Z.of_nat (List.length (due_before_failure (now sv) entries)))
         | Some e => Raise e
         end,
         mkstate (log st ++ lg)
           (posts st ++
              (stage_post cfg sv title author_mention <$> due_before_failure (now sv) entries)))
  | Raise e => process_page cfg sv page (p, n) st = (Raise e, st)
  end.
Proof.
  intros Hsink. unfold page_fields, process_page.
  destruct (py_get page "properties" (PDict ∅)) as [properties | e];
    [| reflexivity].
  rewrite bind_lift_Ok. cbn [mbind result_bind].
  destruct (py_get page "id" PNone) as [page_id | e]; [| reflexivity].
  rewrite bind_lift_Ok. cbn [mbind result_bind].
  destruct (get_page_title properties) as [title | e]; [| reflexivity].
  rewrite bind_lift_Ok. cbn [mbind result_bind].
  destruct (get_page_author_mention properties) as [author_mention | e]; [| reflexivity].
  rewrite bind_lift_Ok. cbn [mbind result_bind].
  destruct (dates_to_check properties) as [entries | e]; [| reflexivity].
  rewrite bind_lift_Ok. cbn [mbind result_bind]. rewrite bind_M.
  destruct (inner_loop cfg sv title author_mention entries n st Hsink) as [lg Hloop].
  rewrite Hloop. exists lg.
  destruct (first_failure (now sv) entries); reflexivity.
Qed.

Lemma due_before_failure_all_ok now entries :
  forallb (fun entry => is_ok (check_date_proximity now entry.2)) entries = true ->
  first_failure now entries = None /\
  due_before_failure now entries
  = (List.filter (fun entry => passes_rule now entry.2) entries).*1.
Proof.
  induction entries as [| [stage date_str] entries IH]; [now split |].
  cbn [forallb first_failure due_before_failure List.filter snd]. unfold passes_rule at 1.
  destruct (check_date_proximity now date_str) as [due | e]; [| discriminate].
  cbn [is_ok andb]. intros Hall. destruct (IH Hall) as [Hnone Hdue].
  split; [exact Hnone |]. rewrite Hdue. now destruct (truthy due).
Qed.

(** The outer loop over records the run gets through. *)
Lemma pages_loop cfg sv pages p n st :
  sink_typed sv ->
  Forall (fun page => record_ok (now sv) page = true) pages ->
  exists lg,
    for_each (process_page cfg sv) pages (p, n) st =
    (Ok (p + Z.of_nat (List.length pages),
         n + Z.of_nat (List.length (flat_map (expected_posts cfg sv) pages))),
     mkstate (log st ++ lg) (posts st ++ flat_map (expected_posts cfg sv) pages)).
Proof.
  intros Hsink Hall. revert p n st.
  induction Hall as [| page pages Hpage _ IH]; intros p n st.
  - exists []. cbn. rewrite !app_nil_r, !Z.add_0_r. now destruct st.
  - cbn [for_each flat_map]. rewrite bind_M.
    pose proof (process_page_fields cfg sv page p n st Hsink) as Hstep.
    unfold record_ok in Hpage. unfold expected_posts at 1 3.
    destruct (page_fields page) as [[[title author_mention] entries] | e];
      [| discriminate Hpage].
    destruct (due_before_failure_all_ok _ _ Hpage) as [Hnone Hdue].
    destruct Hstep as [lg1 Hstep]. rewrite Hstep, Hnone, Hdue.
    destruct (IH (p + 1)
      (n + Z.of_nat (List.length (List.filter (fun entry => passes_rule (now sv) entry.2) entries).*1))
      (mkstate (log st ++ lg1)
         (posts st ++ (stage_post cfg sv title author_mention <$>
            (List.filter (fun entry => passes_rule (now sv) entry.2) entries).*1))))
      as [lg2 Hrest].
    rewrite Hrest. cbn [log posts]. exists (lg1 ++ lg2).
    f_equal; [| now rewrite !app_assoc].
    do 2 f_equal; [cbn [Datatypes.length]; lia |].
    rewrite length_app, !length_fmap. lia.
Qed.

Lemma main_unfold cfg sv st :
  main cfg sv st =
  let st1 := mkstate (log st ++ [InfoStarting; InfoQuerying (NOTION_DATABASE_ID cfg)])
               (posts st) in
  match fetched_pages (databases_query sv (NOTION_DATABASE_ID cfg)) with
  | Raise e => (Ok tt, mkstate (log st1 ++ [handled e]) (posts st1))
  | Ok pages =>
      match for_each (process_page cfg sv) pages (0, 0) st1 with
      | (Ok (p, n), st2) => (Ok tt, mkstate (log st2 ++ [InfoFinished p n]) (posts st2))
      | (Raise e, st2) => (Ok tt, mkstate (log st2 ++ [handled e]) (posts st2))
      end
  end.
Proof.
  unfold main. rewrite bind_logging. unfold try_except. rewrite bind_logging.
  cbn [log posts]. rewrite <- app_assoc. cbn [app]. unfold fetched_pages.
  destruct (databases_query sv (NOTION_DATABASE_ID cfg)) as [response | e];
    cbn [mbind result_bind]; [| rewrite bind_lift_Raise; destruct e; reflexivity].
  rewrite bind_lift_Ok.
  destruct (py_get response "results" (PList [])) as [results | e];
    cbn [mbind result_bind]; [| rewrite bind_lift_Raise; destruct e; reflexivity].
  rewrite bind_lift_Ok.
  destruct (py_iter results) as [pages | e];
    [| rewrite bind_lift_Raise; destruct e; reflexivity].
  rewrite bind_lift_Ok, bind_M.
  destruct (for_each _ pages (0, 0) _) as [[[p n] | e] st2]; [reflexivity |].
  destruct e; reflexivity.
Qed.

Lemma script_complete getenv cfg sv st :
  environment_of getenv cfg ->
  script getenv sv st =
  match main cfg sv st with
  | (Ok _, st') => (0, st')
  | (Raise _, st') => (1, st')
  end.
Proof.
  intros (Ht & Hb & Hc & Hd & Hnt & Hnb & Hnc & Hnd). unfold script.
  rewrite Ht, Hb, Hc, Hd. cbn [fmap list_fmap getenv_value forallb truthy].
  apply String.eqb_neq in Hnt, Hnb, Hnc, Hnd. rewrite Hnt, Hnb, Hnc, Hnd.
  cbn [negb andb default from_option id]. now destruct cfg.
Qed.

(** C9: when the query fails with the source's API error, [main] logs
    the start, the query and the error with the source's detail, posts
    nothing, and returns without raising; a process started with its four
    settings then exits with status 0. *)
Theorem main_fetch_failure (cfg : config) (sv : services) (st : state) (detail : string) :
  databases_query sv (NOTION_DATABASE_ID cfg) = Raise (APIResponseError detail) ->
  main cfg sv st =
    (Ok tt,
     mkstate (log st ++ [InfoStarting; InfoQuerying (NOTION_DATABASE_ID cfg);
                         ErrorNotion detail])
       (posts st)) /\
  (forall getenv, environment_of getenv cfg ->
     script getenv sv st =
       (0,
        mkstate (log st ++ [InfoStarting; InfoQuerying (NOTION_DATABASE_ID cfg);
                            ErrorNotion detail])
          (posts st))).
Proof.
  intros Hquery.
  assert (Hmain : main cfg sv st =
    (Ok tt,
     mkstate (log st ++ [InfoStarting; InfoQuerying (NOTION_DATABASE_ID cfg);
                         ErrorNotion detail])
       (posts st))).
  { rewrite main_unfold, Hquery. cbn [fetched_pages mbind result_bind handled log posts].
    now rewrite <- app_assoc. }
  split; [exact Hmain |].
  intros getenv Henv. now rewrite (script_complete getenv cfg sv st Henv), Hmain.
Qed.

Lemma demo_environment : environment_of demo_getenv demo_config.
Proof. repeat split; discriminate. Qed.

Lemma main_fetch_failure_witness :
  script demo_getenv
    (demo_services (Raise (APIResponseError "API token is invalid.")) sink_accepts)
    empty_state
  = (0, mkstate [InfoStarting; InfoQuerying "db-1"; ErrorNotion "API token is invalid."] []).
Proof.
  exact (proj2 (main_fetch_failure demo_config
                  (demo_services (Raise (APIResponseError "API token is invalid."))
                     sink_accepts)
                  empty_state "API token is invalid." eq_refl)
           demo_getenv demo_environment).
Defined.

Lemma fetched_pages_results (query : result pyval) (response : gmap string pyval)
    (pages : list pyval) :
  query = Ok (PDict response) ->
  default (PList []) (response !! "results") = PList pages ->
  fetched_pages query = Ok pages.
Proof.
  intros -> Hresults. unfold fetched_pages. cbn [mbind result_bind].
  rewrite py_get_dict. cbn [mbind result_bind]. now rewrite Hresults.
Qed.

Lemma dates_to_check_entries properties entries :
  dates_to_check properties = Ok entries ->
  exists first final published,
    entries = [("first draft", first); ("final draft", final);
               ("published version", published)].
Proof.
  unfold dates_to_check.
  destruct (get_date_property properties NOTION_FIRST_DRAFT_DATE_PROP) as [first |];
    [| discriminate].
  destruct (get_date_property properties NOTION_READY_BY_DATE_PROP) as [final |];
    [| discriminate].
  destruct (get_date_property properties NOTION_PUBLISHING_DATE_PROP) as [published |];
    [| discriminate].
  intros [= <-]. eauto.
Qed.

Lemma page_fields_entries page title author_mention entries :
  page_fields page = Ok (title, author_mention, entries) ->
  exists first final published,
    entries = [("first draft", first); ("final draft", final);
               ("published version", published)].
Proof.
  unfold page_fields.
  destruct (py_get page "properties" (PDict ∅)) as [properties |];
    cbn [mbind result_bind]; [| discriminate].
  destruct (py_get page "id" PNone); cbn [mbind result_bind]; [| discriminate].
  destruct (get_page_title properties); cbn [mbind result_bind]; [| discriminate].
  destruct (get_page_author_mention properties); cbn [mbind result_bind];
    [| discriminate].
  destruct (dates_to_check properties) as [entries' |] eqn:Hdates;
    cbn [mbind result_bind]; [| discriminate].
  intros [= <- <- <-]. exact (dates_to_check_entries _ _ Hdates).
Qed.

Lemma record_ok_milestones cfg sv pages :
  Forall (fun page => record_ok (now sv) page = true) pages ->
  Forall (fun page =>
    exists title author_mention first final published,
      page_fields page =
        Ok (title, author_mention,
            [("first draft", first); ("final draft", final);
             ("published version", published)]) /\
      expected_posts cfg sv page =
        stage_post cfg sv title author_mention <$>
          (List.filter (fun entry => passes_rule (now sv) entry.2)
             [("first draft", first); ("final draft", final);
              ("published version", published)]).*1) pages.
Proof.
  intros Hall. eapply Forall_impl; [exact Hall |]. clear Hall.
  intros page Hok. unfold record_ok in Hok. unfold expected_posts.
  destruct (page_fields page) as [[[title author_mention] entries] | e] eqn:Hfields;
    [| discriminate Hok].
  destruct (page_fields_entries _ _ _ _ Hfields) as (first & final & published & ->).
  exists title, author_mention, first, final, published. now split.
Qed.

Lemma first_failure_malformed now entries stage s :
  In (stage, PStr s) entries -> s ≠ "" -> (forall dt, strptime s ≠ Ok dt) ->
  exists e, first_failure now entries = Some e /\ handled e = ErrorUnexpected e.
Proof.
  intros Hin Hne Hs. induction entries as [| [stage' date_str] entries IH];
    [destruct Hin |].
  cbn [first_failure].
  destruct (check_date_proximity now date_str) as [due | e] eqn:Hcheck.
  - destruct Hin as [[= -> ->] | Hin]; [| now apply IH].
    destruct (strptime s) as [dt | e] eqn:E; [now destruct (Hs dt) |].
    rewrite (check_date_proximity_unparseable now s e Hne E) in Hcheck.
    discriminate Hcheck.
  - exists e. split; [reflexivity |].
    destruct (check_date_proximity_raises _ _ _ Hcheck) as [-> | [-> | ->]]; reflexivity.
Qed.

Lemma process_page_with_query cfg sv query :
  process_page cfg (with_query sv query) = process_page cfg sv.
Proof. destruct sv. reflexivity. Qed.

(** The outer loop when a record fails in the inner loop: the records
    before it are processed, the failing record's stages are notified up to
    the failure, and what follows the record plays no part. *)
Lemma abort_loop cfg sv before bad title author_mention entries e p n st :
  sink_typed sv ->
  Forall (fun page => record_ok (now sv) page = true) before ->
  page_fields bad = Ok (title, author_mention, entries) ->
  first_failure (now sv) entries = Some e ->
  exists lg, forall rest,
    for_each (process_page cfg sv) (before ++ bad :: rest) (p, n) st =
    (Raise e,
     mkstate (log st ++ lg)
       (posts st ++ flat_map (expected_posts cfg sv) before ++
          (stage_post cfg sv title author_mention <$> due_before_failure (now sv) entries))).
Proof.
  intros Hsink Hbefore Hfields Hfail.
  destruct (pages_loop cfg sv before p n st Hsink Hbefore) as [lg1 Hloop].
  pose proof (process_page_fields cfg sv bad (p + Z.of_nat (List.length before))
    (n + Z.of_nat (List.length (flat_map (expected_posts cfg sv) before)))
    (mkstate (log st ++ lg1) (posts st ++ flat_map (expected_posts cfg sv) before))
    Hsink) as Hbad.
  rewrite Hfields, Hfail in Hbad. destruct Hbad as [lg2 Hbad]. cbn [log posts] in Hbad.
  exists (lg1 ++ lg2). intros rest.
  rewrite for_each_app, Hloop. cbn [for_each]. rewrite bind_M, Hbad.
  now rewrite <- !app_assoc.
Qed.

(** ** The scenarios of the specification, run *)

Lemma sink_rejects_typed query : sink_typed (demo_services query sink_rejects).
Proof. intros history p e [= <-]. eexists _, _. split; reflexivity. Qed.

(** * Further properties of the code *)

(** ** The proximity rule on every input *)

Lemma strptime_sound (s : string) (dt : datetime) :
  strptime s = Ok dt -> valid_date (dt_date dt) = true /\ dt_time dt = 0 /\ s ≠ "".
Proof.
  unfold strptime. intros Hs. split; [| split].
  - destruct (format_regex_match s) as [[[[y m] d] rest] |]; [| discriminate].
    destruct (String.eqb rest ""); [| discriminate].
    destruct (valid_date (mkdate y m d)) eqn:Hv; [| discriminate].
    now injection Hs as <-.
  - destruct (format_regex_match s) as [[[[y m] d] rest] |]; [| discriminate].
    destruct (String.eqb rest ""); [| discriminate].
    destruct (valid_date (mkdate y m d)); [| discriminate].
    now injection Hs as <-.
  - intros ->. discriminate Hs.
Qed.

(** The rule on strings, in full: the empty string gives false, a string
    the parser rejects raises [ValueError], and a string the parser accepts
    is compared, as the calendar date it denotes, with the day after the
    clock's date; so the answer is true exactly for the strings that parse
    to tomorrow's date. *)
Theorem check_date_proximity_on_strings (now : datetime) (tomorrow : date) (s : string) :
  add_one_day (dt_date now) = Ok tomorrow ->
  (s = "" -> check_date_proximity now (PStr s) = Ok (PBool false)) /\
  (s ≠ "" -> (forall dt, strptime s ≠ Ok dt) ->
     check_date_proximity now (PStr s) = Raise ValueError) /\
  (forall dt, strptime s = Ok dt ->
     valid_date (dt_date dt) = true /\
     check_date_proximity now (PStr s) = Ok (PBool (date_eqb (dt_date dt) tomorrow))) /\
  (check_date_proximity now (PStr s) = Ok (PBool true) <->
     exists dt, strptime s = Ok dt /\ dt_date dt = tomorrow).
Proof.
  intros Htom.
  assert (Hparsed : forall dt, strptime s = Ok dt ->
    check_date_proximity now (PStr s) = Ok (PBool (date_eqb (dt_date dt) tomorrow))).
  { intros dt Hs. now apply check_date_proximity_parsed. }
  split; [intros ->; reflexivity |]. split; [| split; [| split]].
  - intros Hne Hs. destruct (strptime s) as [dt | e] eqn:E; [now destruct (Hs dt) |].
    exact (check_date_proximity_unparseable now s e Hne E).
  - intros dt Hs. split; [exact (proj1 (strptime_sound s dt Hs)) | now apply Hparsed].
  - destruct (strptime s) as [dt | e] eqn:E.
    + rewrite (Hparsed dt eq_refl). intros [= Heq]. exists dt.
      split; [reflexivity | now apply date_eqb_eq].
    + destruct (String.eqb s "") eqn:Hempty.
      * apply String.eqb_eq in Hempty. subst s. discriminate.
      * apply String.eqb_neq in Hempty.
        rewrite (check_date_proximity_unparseable now s e Hempty E). discriminate.
  - intros (dt & Hs & <-). rewrite (Hparsed dt Hs).
    now rewrite (proj2 (date_eqb_eq _ _) eq_refl).
Qed.

Lemma check_date_proximity_on_strings_witness :
  check_date_proximity noon_2024_02_28 (PStr "2024-2-29") = Ok (PBool true).
Proof.
  apply (proj2 (proj2 (proj2 (proj2
    (check_date_proximity_on_strings noon_2024_02_28 (mkdate 2024 2 29) "2024-2-29"
       eq_refl))))).
  exists (mkdatetime (mkdate 2024 2 29) 0). split; reflexivity.
Defined.

(** A date that is present but not a string (a number, a list, a mapping,
    [True]) makes the rule raise [TypeError]. *)
Theorem check_date_proximity_not_a_string (now : datetime) (v : pyval) :
  truthy v = true -> (forall s, v ≠ PStr s) ->
  check_date_proximity now v = Raise TypeError.
Proof.
  intros Ht Hv. unfold check_date_proximity. rewrite Ht. cbn [negb].
  destruct v as [| b | z | s | l | d]; try reflexivity. now destruct (Hv s).
Qed.

Lemma check_date_proximity_not_a_string_witness :
  check_date_proximity noon_2024_02_28 (PInt 20240229) = Raise TypeError.
Proof.
  apply check_date_proximity_not_a_string; [reflexivity | discriminate].
Defined.

(** The regular expression on a well-formed date string followed by more
    text: the date is read and the text is left over. *)
Lemma format_regex_match_iso_suffix (y m d : Z) (suffix : string) :
  0 <= y <= 9999 -> 1 <= m <= 12 -> 1 <= d <= 31 ->
  format_regex_match (iso_date_string (mkdate y m d) +:+ suffix) = Some (y, m, d, suffix).
Proof.
  intros Hy Hm Hd.
  change (iso_date_string (mkdate y m d) +:+ suffix)
    with (two_digits (y / 100) (two_digits (y mod 100)
            (String "-" (two_digits m (String "-" (two_digits d suffix)))))).
  unfold format_regex_match.
  eapply head_bind; [now rewrite re_Y_year |]. cbn beta iota.
  eapply head_bind; [reflexivity |].
  eapply head_bind; [now apply re_m_two_digits |]. cbn beta iota.
  eapply head_bind; [reflexivity |].
  eapply head_bind; [now apply re_d_two_digits |]. reflexivity.
Qed.

(** A well-formed date followed by anything, a time of day for one, is
    not accepted: the parser raises [ValueError] on the text left over, and
    so does the rule, whatever the clock. *)
Theorem check_date_proximity_trailing_text (now : datetime) (d : date) (suffix : string) :
  valid_date d = true -> suffix ≠ "" ->
  strptime (iso_date_string d +:+ suffix) = Raise ValueError /\
  check_date_proximity now (PStr (iso_date_string d +:+ suffix)) = Raise ValueError.
Proof.
  intros Hv Hsuffix.
  assert (Hparse : strptime (iso_date_string d +:+ suffix) = Raise ValueError).
  { destruct d as [y m dd]. unfold strptime.
    pose proof (proj1 (valid_date_bounds _) Hv) as (Hy & Hm & Hd).
    cbn [year month day] in *. pose proof (days_in_month_bounds y m).
    rewrite format_regex_match_iso_suffix by lia.
    apply String.eqb_neq in Hsuffix. now rewrite Hsuffix. }
  split; [exact Hparse |].
  apply (check_date_proximity_unparseable now _ ValueError); [| exact Hparse].
  unfold iso_date_string, two_digits. cbn [String.append]. discriminate.
Qed.

Lemma check_date_proximity_trailing_text_witness :
  check_date_proximity noon_2024_02_28 (PStr "2024-02-29T09:30:00.000+00:00")
  = Raise ValueError.
Proof.
  exact (proj2 (check_date_proximity_trailing_text noon_2024_02_28 (mkdate 2024 2 29)
                  "T09:30:00.000+00:00" eq_refl ltac:(discriminate))).
Defined.

Lemma re_m_short_digits (m : Z) (rest : string) :
  1 <= m <= 12 ->
  head (re_m (short_digits m (String "-" rest))) = Some (m, String "-" rest).
Proof. intros Hm. split_range m 1 12; reflexivity. Qed.

Lemma re_d_short_digits (d : Z) :
  1 <= d <= 31 -> head (re_d (short_digits d "")) = Some (d, "").
Proof. intros Hd. split_range d 1 31; reflexivity. Qed.

(** The parser does not insist on zero padding: the date string with
    month and day written without leading zeros parses to the same
    calendar date, and the rule treats it like the well-formed one. *)
Theorem check_date_proximity_unpadded (now : datetime) (tomorrow d : date) :
  valid_date d = true ->
  add_one_day (dt_date now) = Ok tomorrow ->
  strptime (unpadded_date_string d) = Ok (mkdatetime d 0) /\
  check_date_proximity now (PStr (unpadded_date_string d))
  = check_date_proximity now (PStr (iso_date_string d)).
Proof.
  intros Hv Htom.
  assert (Hparse : strptime (unpadded_date_string d) = Ok (mkdatetime d 0)).
  { destruct d as [y m dd]. unfold strptime.
    pose proof (proj1 (valid_date_bounds _) Hv) as (Hy & Hm & Hd).
    cbn [year month day] in *. pose proof (days_in_month_bounds y m).
    assert (Hmatch : format_regex_match (unpadded_date_string (mkdate y m dd))
                     = Some (y, m, dd, "")).
    { unfold format_regex_match, unpadded_date_string. cbn [year month day].
      eapply head_bind; [rewrite re_Y_year by lia; reflexivity |]. cbn beta iota.
      eapply head_bind; [reflexivity |].
      eapply head_bind; [apply re_m_short_digits; lia |]. cbn beta iota.
      eapply head_bind; [reflexivity |].
      eapply head_bind; [apply re_d_short_digits; lia |]. reflexivity. }
    rewrite Hmatch. cbn [String.eqb]. now rewrite Hv. }
  split; [exact Hparse |].
  rewrite (check_date_proximity_parsed now _ _ tomorrow Hparse Htom).
  now rewrite (check_date_proximity_parsed now _ _ tomorrow (strptime_iso d Hv) Htom).
Qed.

Lemma check_date_proximity_unpadded_witness :
  strptime "2024-3-5" = Ok (mkdatetime (mkdate 2024 3 5) 0).
Proof.
  exact (proj1 (check_date_proximity_unpadded noon_2024_02_28 (mkdate 2024 2 29)
                  (mkdate 2024 3 5) eq_refl eq_refl)).
Defined.

(** The end of the calendar: the clock's date has no next day exactly on
    9999-12-31, and on that day the rule raises [OverflowError] on every
    date string the parser accepts, while an absent date still gives
    false. *)
Theorem check_date_proximity_last_day (now : datetime) :
  valid_date (dt_date now) = true ->
  (add_one_day (dt_date now) = Raise OverflowError <-> dt_date now = last_day) /\
  (dt_date now = last_day ->
     (forall s dt, strptime s = Ok dt ->
        check_date_proximity now (PStr s) = Raise OverflowError) /\
     check_date_proximity now PNone = Ok (PBool false)).
Proof.
  intros Hv. destruct now as [[y m d] t]. cbn [dt_date] in *.
  pose proof (proj1 (valid_date_bounds _) Hv) as (Hy & Hm & Hd).
  cbn [year month day] in *.
  assert (Hiff : add_one_day (mkdate y m d) = Raise OverflowError <->
                 mkdate y m d = last_day).
  { unfold add_one_day, last_day, MAXYEAR. cbn [year month day]. split.
    - destruct (d <? days_in_month y m)%Z eqn:E1; [discriminate |].
      destruct (m <? 12)%Z eqn:E2; [discriminate |].
      destruct (y <? 9999)%Z eqn:E3; [discriminate |]. intros _.
      apply Z.ltb_ge in E1, E2, E3.
      assert (m = 12) by lia. subst m.
      change (days_in_month y 12) with 31 in *.
      f_equal; lia.
    - intros [= -> -> ->]. reflexivity. }
  split; [exact Hiff |]. intros Hlast. split; [| reflexivity].
  intros s dt Hs. unfold check_date_proximity.
  destruct (strptime_sound s dt Hs) as (_ & _ & Hne).
  assert (Ht : truthy (PStr s) = true) by (destruct s; [congruence | reflexivity]).
  rewrite Ht, Hs. cbn [negb mbind result_bind]. unfold datetime_add_one_day.
  cbn [dt_date]. now rewrite (proj2 Hiff Hlast).
Qed.

Lemma check_date_proximity_last_day_witness :
  check_date_proximity (mkdatetime last_day 0) (PStr "2024-02-29") = Raise OverflowError.
Proof.
  exact (proj1 (proj2 (check_date_proximity_last_day (mkdatetime last_day 0) eq_refl)
                  eq_refl)
           "2024-02-29" (mkdatetime (mkdate 2024 2 29) 0) eq_refl).
Defined.

(** ** Field extraction reads one property *)

(** Each extraction looks at the property under its own key and at
    nothing else: setting any other property of the mapping leaves its
    outcome, value or exception, as it was. *)
Theorem extraction_reads_own_key (props : gmap string pyval) (key : string) (v : pyval) :
  (key ≠ NOTION_TITLE_PROP ->
     get_page_title (PDict (<[key := v]> props)) = get_page_title (PDict props)) /\
  (key ≠ NOTION_AUTHOR_PROP ->
     get_page_author_mention (PDict (<[key := v]> props))
     = get_page_author_mention (PDict props)) /\
  (forall prop_name, key ≠ prop_name ->
     get_date_property (PDict (<[key := v]> props)) prop_name
     = get_date_property (PDict props) prop_name).
Proof.
  split; [| split].
  - intros Hne. rewrite !get_page_title_dict. now rewrite lookup_insert_ne.
  - intros Hne. rewrite !get_page_author_mention_dict. now rewrite lookup_insert_ne.
  - intros prop_name Hne. rewrite !get_date_property_dict. now rewrite lookup_insert_ne.
Qed.

Lemma extraction_reads_own_key_witness :
  get_date_property (PDict (<["publishing_date" := PNone]> ready_by_props)) "ready_by_date"
  = get_date_property (PDict ready_by_props) "ready_by_date".
Proof.
  apply (proj2 (proj2 (extraction_reads_own_key ready_by_props "publishing_date" PNone))).
  discriminate.
Defined.

(** ** The start-up check and the exit status *)

(** When one of the four settings is missing from the environment, or is
    the empty string, the process logs one error and exits with status 1;
    it makes no query and no request, whatever the services would have
    answered. *)
Theorem script_missing_setting (getenv : string -> option string) (sv : services)
    (st : state) (name : string) :
  In name ["NOTION_TOKEN"; "SLACK_BOT_TOKEN"; "SLACK_CHANNEL_ID"; "NOTION_DATABASE_ID"] ->
  getenv name = None \/ getenv name = Some "" ->
  script getenv sv st = (1, mkstate (log st ++ [ErrorMissingEnvironment]) (posts st)).
Proof.
  intros Hin Hmissing.
  assert (Hfalsy : truthy (getenv_value (getenv name)) = false)
    by (destruct Hmissing as [-> | ->]; reflexivity).
  unfold script. cbn [fmap list_fmap forallb].
  destruct Hin as [<- | [<- | [<- | [<- | []]]]]; rewrite Hfalsy;
    repeat match goal with
           | |- context [truthy ?x] => destruct (truthy x)
           end; reflexivity.
Qed.

Lemma script_missing_setting_witness :
  script getenv_empty_channel
    (demo_services (Ok (PDict (response_of [record_A]))) sink_accepts) empty_state
  = (1, mkstate [ErrorMissingEnvironment] []).
Proof.
  exact (script_missing_setting getenv_empty_channel
           (demo_services (Ok (PDict (response_of [record_A]))) sink_accepts)
           empty_state "SLACK_CHANNEL_ID"
           ltac:(right; right; left; reflexivity) ltac:(right; reflexivity)).
Defined.

(** [main] returns normally on every run: whatever the query, the records
    and the sink do, no exception leaves it, and a process started with its
    four settings exits with status 0. *)
Theorem main_always_returns (cfg : config) (sv : services) (st : state) :
  (main cfg sv st).1 = Ok tt /\
  (forall getenv, environment_of getenv cfg ->
     script getenv sv st = (0, (main cfg sv st).2)).
Proof.
  assert (Hmain : (main cfg sv st).1 = Ok tt).
  { rewrite main_unfold. cbn zeta.
    destruct (fetched_pages _) as [pages | e]; [| reflexivity].
    destruct (for_each _ pages (0, 0) _) as [[[p n] | e] st2]; reflexivity. }
  split; [exact Hmain |].
  intros getenv Henv. rewrite (script_complete getenv cfg sv st Henv).
  destruct (main cfg sv st) as [[[] | e] st']; [reflexivity | discriminate Hmain].
Qed.

Lemma main_always_returns_witness :
  (script demo_getenv
     (demo_services (Ok (PDict (response_of [record_A; record_bad]))) sink_unreachable)
     empty_state).1 = 0.
Proof.
  exact (f_equal fst
           (proj2 (main_always_returns demo_config
                     (demo_services (Ok (PDict (response_of [record_A; record_bad])))
                        sink_unreachable) empty_state)
              demo_getenv demo_environment)).
Defined.

(** ** What the query returns *)

(** Whatever exception the query raises, [main] logs it and makes no
    request; only the source's own API error is logged as such, every other
    class goes through the generic handler. *)
Theorem main_query_raises (cfg : config) (sv : services) (st : state) (e : exn) :
  databases_query sv (NOTION_DATABASE_ID cfg) = Raise e ->
  main cfg sv st =
    (Ok tt,
     mkstate (log st ++ [InfoStarting; InfoQuerying (NOTION_DATABASE_ID cfg); handled e])
       (posts st)) /\
  ((forall detail, e ≠ APIResponseError detail) -> handled e = ErrorUnexpected e).
Proof.
  intros Hquery. split.
  - rewrite main_unfold, Hquery. cbn [fetched_pages mbind result_bind log posts].
    now rewrite <- app_assoc.
  - intros Hother. destruct e; try reflexivity. now destruct (Hother s).
Qed.

Lemma main_query_raises_witness :
  main demo_config (demo_services (Raise (OtherException "RequestTimeoutError")) sink_accepts)
    empty_state
  = (Ok tt,
     mkstate [InfoStarting; InfoQuerying "db-1";
              ErrorUnexpected (OtherException "RequestTimeoutError")] []).
Proof.
  exact (proj1 (main_query_raises demo_config
                  (demo_services (Raise (OtherException "RequestTimeoutError")) sink_accepts)
                  empty_state (OtherException "RequestTimeoutError") eq_refl)).
Defined.

(** A response without a "results" entry, or with an empty one, is a run
    over no records: [main] reports 0 pages and 0 notifications and makes
    no request. *)
Theorem main_no_records (cfg : config) (sv : services) (st : state)
    (response : gmap string pyval) :
  databases_query sv (NOTION_DATABASE_ID cfg) = Ok (PDict response) ->
  response !! "results" = None \/ response !! "results" = Some (PList []) ->
  main cfg sv st =
    (Ok tt,
     mkstate (log st ++ [InfoStarting; InfoQuerying (NOTION_DATABASE_ID cfg);
                         InfoFinished 0 0])
       (posts st)).
Proof.
  intros Hquery Hresults. rewrite main_unfold.
  rewrite (fetched_pages_results _ response [] Hquery)
    by (destruct Hresults as [-> | ->]; reflexivity).
  cbn [for_each mret M_ret log posts]. now rewrite <- app_assoc.
Qed.

Lemma main_no_records_witness :
  main demo_config (demo_services (Ok (PDict {[ "has_more" := PBool false ]})) sink_accepts)
    empty_state
  = (Ok tt, mkstate [InfoStarting; InfoQuerying "db-1"; InfoFinished 0 0] []).
Proof.
  exact (main_no_records demo_config
           (demo_services (Ok (PDict {[ "has_more" := PBool false ]})) sink_accepts)
           empty_state {[ "has_more" := PBool false ]} eq_refl
           ltac:(left; vm_compute; reflexivity)).
Defined.

(** A response that is not a mapping, and a "results" entry that cannot be
    iterated over ([None], a number, a truth value), end the run in the
    generic handler, with [AttributeError] and [TypeError], before any
    record is looked at. *)
Theorem main_malformed_response (cfg : config) (sv : services) (st : state)
    (response : pyval) :
  databases_query sv (NOTION_DATABASE_ID cfg) = Ok response ->
  (is_dict response = false ->
     main cfg sv st =
       (Ok tt,
        mkstate (log st ++ [InfoStarting; InfoQuerying (NOTION_DATABASE_ID cfg);
                            ErrorUnexpected AttributeError])
          (posts st))) /\
  (forall fields results, response = PDict fields -> fields !! "results" = Some results ->
     match results with
     | PNone | PBool _ | PInt _ => True
     | _ => False
     end ->
     main cfg sv st =
       (Ok tt,
        mkstate (log st ++ [InfoStarting; InfoQuerying (NOTION_DATABASE_ID cfg);
                            ErrorUnexpected TypeError])
          (posts st))).
Proof.
  intros Hquery. split.
  - intros Hnot. rewrite main_unfold, Hquery. cbn zeta.
    destruct response; try discriminate Hnot;
      cbn [fetched_pages mbind result_bind py_get handled log posts];
      now rewrite <- app_assoc.
  - intros fields results -> Hresults Hshape. rewrite main_unfold, Hquery. cbn zeta.
    unfold fetched_pages. cbn [mbind result_bind]. rewrite py_get_dict, Hresults.
    cbn [default from_option id mbind result_bind].
    destruct results; try (now destruct Hshape);
      cbn [py_iter handled log posts]; now rewrite <- app_assoc.
Qed.

Lemma main_malformed_response_witness :
  main demo_config (demo_services (Ok PNone) sink_accepts) empty_state
  = (Ok tt,
     mkstate [InfoStarting; InfoQuerying "db-1"; ErrorUnexpected AttributeError] []).
Proof.
  exact (proj1 (main_malformed_response demo_config (demo_services (Ok PNone) sink_accepts)
                  empty_state PNone eq_refl) eq_refl).
Defined.

(** Of the response [main] reads the "results" entry and nothing else: a
    response that says more records are to be had is treated like one that
    does not, so only the first batch of records is processed. *)
Theorem main_reads_results_only (cfg : config) (sv : services) (st : state)
    (response : gmap string pyval) (key : string) (v : pyval) :
  key ≠ "results" ->
  main cfg (with_query sv (fun _ => Ok (PDict (<[key := v]> response)))) st
  = main cfg (with_query sv (fun _ => Ok (PDict response))) st.
Proof.
  intros Hne. rewrite !main_unfold. cbn [databases_query with_query].
  rewrite !process_page_with_query.
  unfold fetched_pages. cbn [mbind result_bind]. rewrite !py_get_dict.
  now rewrite lookup_insert_ne.
Qed.

Lemma main_reads_results_only_witness :
  main demo_config
    (with_query (demo_services (Ok PNone) sink_accepts)
       (fun _ => Ok (PDict (<["has_more" := PBool true]> (response_of [record_A])))))
    empty_state
  = main demo_config
      (with_query (demo_services (Ok PNone) sink_accepts)
         (fun _ => Ok (PDict (response_of [record_A]))))
      empty_state.
Proof.
  apply main_reads_results_only. discriminate.
Defined.

(** ** What every run keeps *)

Lemma send_slack_message_shape cfg sv author_mention title stage st :
  exists lg,
    (send_slack_message cfg sv author_mention title stage st).2 =
    mkstate (log st ++ lg) (posts st ++ [stage_post cfg sv title author_mention stage]).
Proof.
  rewrite send_slack_message_unfold. cbn zeta.
  fold (stage_post cfg sv title author_mention stage).
  destruct (chat_postMessage sv (posts st) _) as [[] | e].
  - eexists. reflexivity.
  - destruct e; try (eexists; reflexivity).
    destruct (response_getitem s "error") as [error | e']; [| eexists; reflexivity].
    exists [InfoSending (SLACK_CHANNEL_ID cfg) title stage; ErrorSlack error].
    cbn [snd]. now rewrite <- app_assoc.
Qed.

(** The inner loop under any sink: the log and the requests only grow,
    every request goes to the configured channel, there is at most one per
    entry, and a loop that completes has counted one per request. *)
Lemma inner_loop_shape cfg sv title author_mention entries n st :
  exists lg ps,
    (for_each (check_and_notify cfg sv title author_mention) entries n st).2
      = mkstate (log st ++ lg) (posts st ++ ps) /\
    Forall (fun p => channel p = SLACK_CHANNEL_ID cfg) ps /\
    (List.length ps <= List.length entries)%nat /\
    (forall n', (for_each (check_and_notify cfg sv title author_mention) entries n st).1
                = Ok n' ->
       n' = n + Z.of_nat (List.length ps)).
Proof.
  revert n st. induction entries as [| [stage date_str] entries IH]; intros n st.
  - exists [], []. cbn. rewrite !app_nil_r. destruct st.
    split; [reflexivity |]. split; [constructor |]. split; [lia |].
    intros n' [= <-]. lia.
  - cbn [for_each]. rewrite bind_M. unfold check_and_notify at 1 3.
    destruct (check_date_proximity (now sv) date_str) as [due | e].
    + rewrite bind_lift_Ok. destruct (truthy due).
      * rewrite bind_logging, bind_M.
        destruct (send_slack_message_shape cfg sv author_mention title stage
                    (mkstate (log st ++ [InfoDeadline title stage date_str author_mention])
                       (posts st))) as [lg1 Hsend].
        destruct (send_slack_message cfg sv author_mention title stage _) as [r st2].
        cbn [snd log posts] in Hsend. subst st2. destruct r as [[] | e].
        -- cbn [mret M_ret].
           destruct (IH (n + 1)
             (mkstate ((log st ++ [InfoDeadline title stage date_str author_mention]) ++ lg1)
                (posts st ++ [stage_post cfg sv title author_mention stage])))
             as (lg2 & ps & Hstate & Hchan & Hlen & Hcount).
           exists (([InfoDeadline title stage date_str author_mention] ++ lg1) ++ lg2),
             (stage_post cfg sv title author_mention stage :: ps).
           rewrite Hstate. cbn [log posts Datatypes.length].
           split; [| split; [| split]].
           ++ f_equal; [now rewrite !app_assoc | now rewrite <- app_assoc].
           ++ now constructor.
           ++ lia.
           ++ intros n' Hn'. rewrite (Hcount n' Hn'). lia.
        -- exists ([InfoDeadline title stage date_str author_mention] ++ lg1),
             [stage_post cfg sv title author_mention stage].
           cbn [snd fst Datatypes.length]. split; [| split; [| split]].
           ++ now rewrite app_assoc.
           ++ now repeat constructor.
           ++ lia.
           ++ discriminate.
      * cbn [mret M_ret].
        destruct (IH n st) as (lg & ps & Hstate & Hchan & Hlen & Hcount).
        exists lg, ps. cbn [Datatypes.length].
        split; [exact Hstate |]. split; [exact Hchan |]. split; [lia | exact Hcount].
    + rewrite bind_lift_Raise. exists [], []. cbn. rewrite !app_nil_r. destruct st.
      split; [reflexivity |]. split; [constructor |]. split; [lia | discriminate].
Qed.

Lemma process_page_shape cfg sv page p n st :
  exists lg ps,
    (process_page cfg sv page (p, n) st).2 = mkstate (log st ++ lg) (posts st ++ ps) /\
    Forall (fun q => channel q = SLACK_CHANNEL_ID cfg) ps /\
    (List.length ps <= 3)%nat /\
    (forall p' n', (process_page cfg sv page (p, n) st).1 = Ok (p', n') ->
       p' = p + 1 /\ n' = n + Z.of_nat (List.length ps)).
Proof.
  assert (Hstop : forall e : exn, exists lg ps,
    (@Raise (Z * Z) e, st).2 = mkstate (log st ++ lg) (posts st ++ ps) /\
    Forall (fun q => channel q = SLACK_CHANNEL_ID cfg) ps /\
    (List.length ps <= 3)%nat /\
    (forall p' n', (@Raise (Z * Z) e, st).1 = Ok (p', n') ->
       p' = p + 1 /\ n' = n + Z.of_nat (List.length ps))).
  { intros e. exists [], []. cbn. rewrite !app_nil_r. destruct st.
    split; [reflexivity |]. split; [constructor |]. split; [lia | discriminate]. }
  unfold process_page.
  destruct (py_get page "properties" (PDict ∅)) as [properties | e];
    [rewrite bind_lift_Ok | rewrite bind_lift_Raise; apply Hstop].
  destruct (py_get page "id" PNone) as [page_id | e];
    [rewrite bind_lift_Ok | rewrite bind_lift_Raise; apply Hstop].
  destruct (get_page_title properties) as [title | e];
    [rewrite bind_lift_Ok | rewrite bind_lift_Raise; apply Hstop].
  destruct (get_page_author_mention properties) as [author_mention | e];
    [rewrite bind_lift_Ok | rewrite bind_lift_Raise; apply Hstop].
  destruct (dates_to_check properties) as [entries | e] eqn:Hdates;
    [rewrite bind_lift_Ok | rewrite bind_lift_Raise; apply Hstop].
  destruct (dates_to_check_entries _ _ Hdates) as (first & final & published & Hentries).
  rewrite bind_M.
  destruct (inner_loop_shape cfg sv title author_mention entries n st)
    as (lg & ps & Hstate & Hchan & Hlen & Hcount).
  destruct (for_each _ entries n st) as [[n1 | e] st1]; cbn [snd fst] in *.
  - exists lg, ps. cbn [mret M_ret snd fst]. subst entries. cbn [Datatypes.length] in Hlen.
    split; [exact Hstate |]. split; [exact Hchan |]. split; [exact Hlen |].
    intros p' n' [= <- <-]. split; [reflexivity | now apply Hcount].
  - exists lg, ps. subst entries. cbn [Datatypes.length] in Hlen.
    split; [exact Hstate |]. split; [exact Hchan |]. split; [exact Hlen | discriminate].
Qed.

Lemma pages_shape cfg sv pages p n st :
  exists lg ps,
    (for_each (process_page cfg sv) pages (p, n) st).2
      = mkstate (log st ++ lg) (posts st ++ ps) /\
    Forall (fun q => channel q = SLACK_CHANNEL_ID cfg) ps /\
    (List.length ps <= 3 * List.length pages)%nat /\
    (forall p' n', (for_each (process_page cfg sv) pages (p, n) st).1 = Ok (p', n') ->
       p' = p + Z.of_nat (List.length pages) /\ n' = n + Z.of_nat (List.length ps)).
Proof.
  revert p n st. induction pages as [| page pages IH]; intros p n st.
  - exists [], []. cbn. rewrite !app_nil_r. destruct st.
    split; [reflexivity |]. split; [constructor |]. split; [lia |].
    intros p' n' [= <- <-]. lia.
  - cbn [for_each]. rewrite bind_M.
    destruct (process_page_shape cfg sv page p n st)
      as (lg1 & ps1 & Hstate1 & Hchan1 & Hlen1 & Hcount1).
    destruct (process_page cfg sv page (p, n) st) as [[[p1 n1] | e] st1];
      cbn [snd fst] in *.
    + destruct (Hcount1 p1 n1 eq_refl) as [-> ->]. subst st1.
      destruct (IH (p + 1) (n + Z.of_nat (List.length ps1))
                  (mkstate (log st ++ lg1) (posts st ++ ps1)))
        as (lg2 & ps2 & Hstate2 & Hchan2 & Hlen2 & Hcount2).
      exists (lg1 ++ lg2), (ps1 ++ ps2). rewrite Hstate2. cbn [log posts].
      rewrite length_app. cbn [Datatypes.length].
      split; [| split; [| split]].
      * now rewrite !app_assoc.
      * now apply Forall_app.
      * lia.
      * intros p' n' Hout. destruct (Hcount2 p' n' Hout) as [-> ->]. lia.
    + exists lg1, ps1. cbn [Datatypes.length].
      split; [exact Hstate1 |]. split; [exact Hchan1 |]. split; [lia | discriminate].
Qed.

Lemma handled_not_finished (e : exn) (p n : Z) : handled e ≠ InfoFinished p n.
Proof. destruct e; discriminate. Qed.

(** A run of [main] under any services, in one statement. *)
Lemma main_shape cfg sv st :
  exists lg ps,
    (main cfg sv st).2 = mkstate (log st ++ lg) (posts st ++ ps) /\
    Forall (fun q => channel q = SLACK_CHANNEL_ID cfg) ps /\
    (forall pages,
       fetched_pages (databases_query sv (NOTION_DATABASE_ID cfg)) = Ok pages ->
       (List.length ps <= 3 * List.length pages)%nat) /\
    (forall e,
       fetched_pages (databases_query sv (NOTION_DATABASE_ID cfg)) = Raise e -> ps = []) /\
    (forall p n, last lg = Some (InfoFinished p n) ->
       n = Z.of_nat (List.length ps) /\
       exists pages,
         fetched_pages (databases_query sv (NOTION_DATABASE_ID cfg)) = Ok pages /\
         p = Z.of_nat (List.length pages)).
Proof.
  rewrite main_unfold. cbn zeta.
  destruct (fetched_pages _) as [pages | e].
  - destruct (pages_shape cfg sv pages 0 0
                (mkstate (log st ++ [InfoStarting; InfoQuerying (NOTION_DATABASE_ID cfg)])
                   (posts st))) as (lg & ps & Hstate & Hchan & Hlen & Hcount).
    destruct (for_each _ pages (0, 0) _) as [[[p n] | e] st2];
      cbn [snd fst] in *; subst st2; cbn [log posts].
    + exists ([InfoStarting; InfoQuerying (NOTION_DATABASE_ID cfg)] ++ lg ++ [InfoFinished p n]),
        ps.
      split; [now rewrite <- !app_assoc |]. split; [exact Hchan |].
      split; [intros pages' [= <-]; exact Hlen |]. split; [discriminate |].
      intros p' n'. rewrite !app_assoc, last_snoc. intros [= <- <-].
      destruct (Hcount p n eq_refl) as [-> ->].
      split; [lia |]. exists pages. split; [reflexivity | lia].
    + exists ([InfoStarting; InfoQuerying (NOTION_DATABASE_ID cfg)] ++ lg ++ [handled e]), ps.
      split; [now rewrite <- !app_assoc |]. split; [exact Hchan |].
      split; [intros pages' [= <-]; exact Hlen |]. split; [discriminate |].
      intros p' n'. rewrite !app_assoc, last_snoc. intros [= Hfin].
      now destruct (handled_not_finished e p' n').
  - exists [InfoStarting; InfoQuerying (NOTION_DATABASE_ID cfg); handled e], [].
    cbn [log posts]. rewrite app_nil_r.
    split; [now rewrite <- app_assoc |]. split; [constructor |].
    split; [discriminate |]. split; [reflexivity |].
    intros p' n'.
    change [InfoStarting; InfoQuerying (NOTION_DATABASE_ID cfg); handled e]
      with ([InfoStarting; InfoQuerying (NOTION_DATABASE_ID cfg)] ++ [handled e]).
    rewrite last_snoc. intros [= Hfin]. now destruct (handled_not_finished e p' n').
Qed.

(** Whatever the services do, a run only adds to the log and to the
    requests made; every request it adds goes to the configured channel;
    it adds at most three per fetched record, and none when the records
    could not be fetched. *)
Theorem main_requests_bound (cfg : config) (sv : services) (st : state) :
  exists lg ps,
    (main cfg sv st).2 = mkstate (log st ++ lg) (posts st ++ ps) /\
    Forall (fun q => channel q = SLACK_CHANNEL_ID cfg) ps /\
    (forall pages,
       fetched_pages (databases_query sv (NOTION_DATABASE_ID cfg)) = Ok pages ->
       (List.length ps <= 3 * List.length pages)%nat) /\
    (forall e,
       fetched_pages (databases_query sv (NOTION_DATABASE_ID cfg)) = Raise e -> ps = []).
Proof.
  destruct (main_shape cfg sv st) as (lg & ps & Hstate & Hchan & Hlen & Hnone & _).
  exists lg, ps. auto.
Qed.

Lemma main_requests_bound_witness :
  exists lg ps,
    (main demo_config
       (demo_services (Ok (PDict (response_of [record_A; record_bad]))) sink_unreachable)
       empty_state).2 = mkstate lg ps /\
    (List.length ps <= 6)%nat.
Proof.
  destruct (main_requests_bound demo_config
              (demo_services (Ok (PDict (response_of [record_A; record_bad])))
                 sink_unreachable) empty_state)
    as (lg & ps & Hstate & _ & Hlen & _).
  exists lg, ps. split; [exact Hstate |].
  exact (Hlen [record_A; record_bad] eq_refl).
Defined.

(** When the last line a run logs is the summary, the summary is right
    under any sink: the notification count is the number of requests the
    run made, accepted or not, and the page count is the number of fetched
    records. *)
Theorem main_summary_counts (cfg : config) (sv : services) (st : state) :
  exists lg ps,
    (main cfg sv st).2 = mkstate (log st ++ lg) (posts st ++ ps) /\
    (forall p n, last lg = Some (InfoFinished p n) ->
       n = Z.of_nat (List.length ps) /\
       exists pages,
         fetched_pages (databases_query sv (NOTION_DATABASE_ID cfg)) = Ok pages /\
         p = Z.of_nat (List.length pages)).
Proof.
  destruct (main_shape cfg sv st) as (lg & ps & Hstate & _ & _ & _ & Hsummary).
  exists lg, ps. auto.
Qed.

Lemma main_summary_counts_witness :
  exists lg ps,
    (main demo_config
       (demo_services (Ok (PDict (response_of [record_A; record_B; record_C]))) sink_rejects)
       empty_state).2 = mkstate lg ps /\
    last lg = Some (InfoFinished 3 2) /\ List.length ps = 2%nat.
Proof.
  destruct (main_summary_counts demo_config
              (demo_services (Ok (PDict (response_of [record_A; record_B; record_C])))
                 sink_rejects) empty_state)
    as (lg & ps & Hstate & Hsummary).
  exists lg, ps. split; [exact Hstate |].
  vm_compute in Hstate. injection Hstate as <- <-. split; [reflexivity |].
  destruct (Hsummary 3 2 eq_refl) as [Hn _]. apply Nat2Z.inj. now rewrite <- Hn.
Defined.

(** ** A record that cannot be read *)











(** The run up to its summary when it gets through every record. *)
Lemma main_complete_run cfg sv st response pages :
  databases_query sv (NOTION_DATABASE_ID cfg) = Ok (PDict response) ->
  default (PList []) (response !! "results") = PList pages ->
  sink_typed sv ->
  Forall (fun page => record_ok (now sv) page = true) pages ->
  exists lg,
    main cfg sv st =
    (Ok tt,
     mkstate (log st ++ lg) (posts st ++ flat_map (expected_posts cfg sv) pages)).
Proof.
  intros Hquery Hresults Hsink Hall. rewrite main_unfold. cbn zeta.
  rewrite (fetched_pages_results _ response pages Hquery Hresults).
  destruct (pages_loop cfg sv pages 0 0
              (mkstate (log st ++ [InfoStarting; InfoQuerying (NOTION_DATABASE_ID cfg)])
                 (posts st)) Hsink Hall) as [lg Hloop].
  rewrite Hloop. cbn [log posts]. eexists. now rewrite <- !app_assoc.
Qed.



(** ** A sink that cannot be reached *)

Lemma send_slack_message_other cfg sv author_mention title stage st e :
  chat_postMessage sv (posts st) (stage_post cfg sv title author_mention stage) = Raise e ->
  (forall error, e ≠ SlackApiError error) ->
  exists lg,
    send_slack_message cfg sv author_mention title stage st =
    (Raise e, mkstate (log st ++ lg)
                (posts st ++ [stage_post cfg sv title author_mention stage])).
Proof.
  intros Hcall Hother. rewrite send_slack_message_unfold. cbn zeta.
  fold (stage_post cfg sv title author_mention stage). rewrite Hcall.
  destruct e as [| | | | | | detail | response | name]; try (eexists; reflexivity).
  now destruct (Hother response).
Qed.

Lemma inner_loop_unreachable cfg sv title author_mention entries n st e :
  (forall history p, chat_postMessage sv history p = Raise e) ->
  (forall error, e ≠ SlackApiError error) ->
  forallb (fun entry => is_ok (check_date_proximity (now sv) entry.2)) entries = true ->
  exists lg,
    for_each (check_and_notify cfg sv title author_mention) entries n st =
    (match (List.filter (fun entry => passes_rule (now sv) entry.2) entries).*1 with
     | [] => Ok n
     | _ :: _ => Raise e
     end,
     mkstate (log st ++ lg)
       (posts st ++
          take 1 (stage_post cfg sv title author_mention <$>
                    (List.filter (fun entry => passes_rule (now sv) entry.2) entries).*1))).
Proof.
  intros Hsink Hother. revert st.
  induction entries as [| [stage date_str] entries IH]; intros st Hall.
  - exists []. cbn. rewrite !app_nil_r. now destruct st.
  - cbn [forallb snd] in Hall. cbn [for_each List.filter snd]. rewrite bind_M.
    unfold check_and_notify at 1.
    destruct (check_date_proximity (now sv) date_str) as [due | e0] eqn:Hcheck;
      [| discriminate Hall].
    assert (Hpass : passes_rule (now sv) date_str = truthy due)
      by (unfold passes_rule; now rewrite Hcheck).
    rewrite Hpass. cbn [is_ok andb] in Hall. rewrite bind_lift_Ok. destruct (truthy due).
    + rewrite bind_logging, bind_M.
      destruct (send_slack_message_other cfg sv author_mention title stage
                  (mkstate (log st ++ [InfoDeadline title stage date_str author_mention])
                     (posts st)) e (Hsink _ _) Hother) as [lg Hsend].
      rewrite Hsend. cbn [log posts fmap list_fmap fst take].
      exists ([InfoDeadline title stage date_str author_mention] ++ lg).
      now rewrite app_assoc.
    + cbn [mret M_ret]. now apply IH.
Qed.

Lemma process_page_inner cfg sv page title author_mention entries p n st :
  page_fields page = Ok (title, author_mention, entries) ->
  process_page cfg sv page (p, n) st =
  match for_each (check_and_notify cfg sv title author_mention) entries n st with
  | (Ok n', st') => (Ok (p + 1, n'), st')
  | (Raise e, st') => (Raise e, st')
  end.
Proof.
  unfold page_fields, process_page.
  destruct (py_get page "properties" (PDict ∅)) as [properties |];
    cbn [mbind result_bind]; [| discriminate]. rewrite bind_lift_Ok.
  destruct (py_get page "id" PNone) as [page_id |];
    cbn [mbind result_bind]; [| discriminate]. rewrite bind_lift_Ok.
  destruct (get_page_title properties) as [title' |];
    cbn [mbind result_bind]; [| discriminate]. rewrite bind_lift_Ok.
  destruct (get_page_author_mention properties) as [author_mention' |];
    cbn [mbind result_bind]; [| discriminate]. rewrite bind_lift_Ok.
  destruct (dates_to_check properties) as [entries' |];
    cbn [mbind result_bind]; [| discriminate]. rewrite bind_lift_Ok, bind_M.
  intros [= -> -> ->].
  destruct (for_each _ entries n st) as [[n' | e] st']; reflexivity.
Qed.

Lemma pages_loop_unreachable cfg sv pages p n st e :
  (forall history q, chat_postMessage sv history q = Raise e) ->
  (forall error, e ≠ SlackApiError error) ->
  Forall (fun page => record_ok (now sv) page = true) pages ->
  exists lg,
    for_each (process_page cfg sv) pages (p, n) st =
    (match flat_map (expected_posts cfg sv) pages with
     | [] => Ok (p + Z.of_nat (List.length pages), n)
     | _ :: _ => Raise e
     end,
     mkstate (log st ++ lg) (posts st ++ take 1 (flat_map (expected_posts cfg sv) pages))).
Proof.
  intros Hsink Hother Hall. revert p st.
  induction Hall as [| page pages Hpage _ IH]; intros p st.
  - exists []. cbn. rewrite !app_nil_r, Z.add_0_r. now destruct st.
  - cbn [for_each flat_map]. rewrite bind_M. unfold record_ok in Hpage.
    unfold expected_posts at 1 3.
    destruct (page_fields page) as [[[title author_mention] entries] |] eqn:Hfields;
      [| discriminate Hpage].
    rewrite (process_page_inner cfg sv page title author_mention entries p n st Hfields).
    destruct (inner_loop_unreachable cfg sv title author_mention entries n st e
                Hsink Hother Hpage) as [lg1 Hloop].
    rewrite Hloop.
    destruct ((List.filter (fun entry => passes_rule (now sv) entry.2) entries).*1)
      as [| stage stages].
    + cbn [fmap list_fmap take app mret M_ret]. rewrite app_nil_r.
      destruct (IH (p + 1) (mkstate (log st ++ lg1) (posts st))) as [lg2 Hrest].
      rewrite Hrest. cbn [log posts Datatypes.length]. exists (lg1 ++ lg2).
      rewrite app_assoc.
      destruct (flat_map (expected_posts cfg sv) pages); [| reflexivity].
      do 3 f_equal. lia.
    + cbn [fmap list_fmap take app]. exists lg1. reflexivity.
Qed.

(** When the sink's client raises, on every request, an exception that is
    not its delivery error, a run over records it could otherwise get
    through makes the first request it has to make and stops there in the
    generic handler; with no request to make it completes and reports
    0 notifications. *)
Theorem main_sink_unreachable (cfg : config) (sv : services) (st : state)
    (response : gmap string pyval) (pages : list pyval) (e : exn) :
  databases_query sv (NOTION_DATABASE_ID cfg) = Ok (PDict response) ->
  default (PList []) (response !! "results") = PList pages ->
  (forall history q, chat_postMessage sv history q = Raise e) ->
  (forall error, e ≠ SlackApiError error) ->
  Forall (fun page => record_ok (now sv) page = true) pages ->
  exists lg,
    main cfg sv st =
    (Ok tt,
     mkstate
       (log st ++ lg ++
          [match flat_map (expected_posts cfg sv) pages with
           | [] => InfoFinished (Z.of_nat (List.length pages)) 0
           | _ :: _ => handled e
           end])
       (posts st ++ take 1 (flat_map (expected_posts cfg sv) pages))).
Proof.
  intros Hquery Hresults Hsink Hother Hall. rewrite main_unfold. cbn zeta.
  rewrite (fetched_pages_results _ response pages Hquery Hresults).
  destruct (pages_loop_unreachable cfg sv pages 0 0
              (mkstate (log st ++ [InfoStarting; InfoQuerying (NOTION_DATABASE_ID cfg)])
                 (posts st)) e Hsink Hother Hall) as [lg Hloop].
  rewrite Hloop. cbn [log posts].
  exists ([InfoStarting; InfoQuerying (NOTION_DATABASE_ID cfg)] ++ lg).
  destruct (flat_map (expected_posts cfg sv) pages);
    rewrite ?Z.add_0_l; now rewrite <- !app_assoc.
Qed.

Lemma main_sink_unreachable_witness :
  exists lg,
    main demo_config
      (demo_services (Ok (PDict (response_of [record_B; record_A; record_C])))
         sink_unreachable)
      empty_state
    = (Ok tt,
       mkstate (lg ++ [ErrorUnexpected (OtherException "URLError")])
         [reminder "Alice" "Post A" "first draft"]).
Proof.
  destruct (main_sink_unreachable demo_config
              (demo_services (Ok (PDict (response_of [record_B; record_A; record_C])))
                 sink_unreachable)
              empty_state (response_of [record_B; record_A; record_C])
              [record_B; record_A; record_C] (OtherException "URLError")
              eq_refl eq_refl
              ltac:(reflexivity) ltac:(discriminate)
              ltac:(repeat constructor; vm_compute; reflexivity)) as [lg Hmain].
  exists lg. exact Hmain.
Defined.

(** ** Records and reminders, from the three milestones *)

Lemma record_processable_ok (now : datetime) (page : pyval) :
  record_processable now page = record_ok now page.
Proof.
  unfold record_processable, record_ok, page_fields.
  destruct (py_get page "properties" (PDict ∅)) as [properties |] eqn:Hp;
    cbn [mbind result_bind]; [| reflexivity].
  destruct (py_get_Ok_dict _ _ _ _ Hp) as [d ->]. cbn [py_get mbind result_bind].
  destruct (get_page_title properties); cbn [mbind result_bind is_ok andb]; [| reflexivity].
  destruct (get_page_author_mention properties); cbn [mbind result_bind is_ok andb];
    [| reflexivity].
  unfold dates_to_check, milestones, milestone_readable,
    NOTION_FIRST_DRAFT_DATE_PROP, NOTION_READY_BY_DATE_PROP, NOTION_PUBLISHING_DATE_PROP.
  cbn [forallb snd].
  destruct (get_date_property properties "first_draft_date");
    cbn [mbind result_bind andb]; [| reflexivity].
  destruct (get_date_property properties "ready_by_date");
    cbn [mbind result_bind andb]; [| now rewrite andb_false_r].
  destruct (get_date_property properties "publishing_date");
    cbn [mbind result_bind andb forallb snd]; [reflexivity |].
  now rewrite !andb_false_r.
Qed.

Lemma page_fields_of_parts page properties title author_mention first final published :
  py_get page "properties" (PDict ∅) = Ok properties ->
  get_page_title properties = Ok title ->
  get_page_author_mention properties = Ok author_mention ->
  get_date_property properties "first_draft_date" = Ok first ->
  get_date_property properties "ready_by_date" = Ok final ->
  get_date_property properties "publishing_date" = Ok published ->
  page_fields page =
    Ok (title, author_mention,
        [("first draft", first); ("final draft", final); ("published version", published)]).
Proof.
  intros Hp Ht Ha H1 H2 H3. unfold page_fields, dates_to_check,
    NOTION_FIRST_DRAFT_DATE_PROP, NOTION_READY_BY_DATE_PROP, NOTION_PUBLISHING_DATE_PROP.
  rewrite Hp. cbn [mbind result_bind].
  destruct (py_get_Ok_dict _ _ _ _ Hp) as [d ->]. cbn [py_get mbind result_bind].
  rewrite Ht, Ha, H1, H2, H3. reflexivity.
Qed.

Lemma record_reminders_expected cfg sv page :
  record_ok (now sv) page = true ->
  expected_posts cfg sv page = record_reminders cfg sv page.
Proof.
  unfold record_ok, expected_posts, record_reminders, page_fields.
  destruct (py_get page "properties" (PDict ∅)) as [properties |] eqn:Hp;
    cbn [mbind result_bind]; [| discriminate].
  destruct (py_get_Ok_dict _ _ _ _ Hp) as [d ->]. cbn [py_get mbind result_bind].
  destruct (get_page_title properties) as [title |]; cbn [mbind result_bind];
    [| discriminate].
  destruct (get_page_author_mention properties) as [author_mention |];
    cbn [mbind result_bind]; [| discriminate].
  unfold dates_to_check, milestones, milestone_due,
    NOTION_FIRST_DRAFT_DATE_PROP, NOTION_READY_BY_DATE_PROP, NOTION_PUBLISHING_DATE_PROP.
  destruct (get_date_property properties "first_draft_date") as [first |] eqn:H1;
    cbn [mbind result_bind]; [| discriminate].
  destruct (get_date_property properties "ready_by_date") as [final |] eqn:H2;
    cbn [mbind result_bind]; [| discriminate].
  destruct (get_date_property properties "publishing_date") as [published |] eqn:H3;
    cbn [mbind result_bind]; [| discriminate].
  intros _. cbn [List.filter snd]. rewrite H1, H2, H3.
  destruct (passes_rule (now sv) first), (passes_rule (now sv) final),
    (passes_rule (now sv) published); reflexivity.
Qed.

Lemma processable_records cfg sv pages :
  Forall (fun page => record_processable (now sv) page = true) pages ->
  Forall (fun page => record_ok (now sv) page = true) pages /\
  flat_map (expected_posts cfg sv) pages = flat_map (record_reminders cfg sv) pages.
Proof.
  induction 1 as [| page pages Hpage _ [IHok IHposts]]; [now split |].
  rewrite record_processable_ok in Hpage. split; [now constructor |].
  cbn [flat_map]. now rewrite IHposts, (record_reminders_expected cfg sv page Hpage).
Qed.

(** C2, as amended: when the query returns its records, every record can
    be processed (its properties, title and author can be read and each of
    its three milestone dates extracted and checked), and the sink fails
    with nothing but its own delivery error with a readable error code,
    [main] makes exactly the requests the records call for, one per
    milestone whose date passes the rule, record by record and in the order
    first draft, final draft, published version, and its last log line
    reports the number of records and the number of requests made, whether
    the sink accepted or rejected them. *)
Theorem main_processes_every_record (cfg : config) (sv : services) (st : state)
    (response : gmap string pyval) (pages : list pyval) :
  databases_query sv (NOTION_DATABASE_ID cfg) = Ok (PDict response) ->
  default (PList []) (response !! "results") = PList pages ->
  sink_typed sv ->
  Forall (fun page => record_processable (now sv) page = true) pages ->
  exists lg,
    main cfg sv st =
    (Ok tt,
     mkstate
       (log st ++ lg ++
          [InfoFinished (Z.of_nat (List.length pages))
             (Z.of_nat (List.length (flat_map (record_reminders cfg sv) pages)))])
       (posts st ++ flat_map (record_reminders cfg sv) pages)).
Proof.
  intros Hquery Hresults Hsink Hall.
  destruct (processable_records cfg sv pages Hall) as [Hok Hposts].
  rewrite main_unfold. cbn zeta.
  rewrite (fetched_pages_results _ response pages Hquery Hresults).
  destruct (pages_loop cfg sv pages 0 0
              (mkstate (log st ++ [InfoStarting; InfoQuerying (NOTION_DATABASE_ID cfg)])
                 (posts st)) Hsink Hok) as [lg Hloop].
  rewrite Hloop, Hposts. cbn [log posts].
  exists ([InfoStarting; InfoQuerying (NOTION_DATABASE_ID cfg)] ++ lg).
  rewrite !Z.add_0_l. now rewrite <- !app_assoc.
Qed.

Lemma main_processes_every_record_witness :
  exists lg,
    main demo_config
      (demo_services (Ok (PDict (response_of [record_A; record_B; record_C]))) sink_rejects)
      empty_state
    = (Ok tt,
       mkstate (lg ++ [InfoFinished 3 2])
         [reminder "Alice" "Post A" "first draft";
          reminder "Carol" "Post C" "published version"]).
Proof.
  destruct (main_processes_every_record demo_config
              (demo_services (Ok (PDict (response_of [record_A; record_B; record_C])))
                 sink_rejects)
              empty_state (response_of [record_A; record_B; record_C])
              [record_A; record_B; record_C] eq_refl eq_refl
              (sink_rejects_typed _)
              ltac:(repeat constructor; vm_compute; reflexivity)) as [lg Hmain].
  exists lg. exact Hmain.
Defined.

(** C2 as stated fails: with three records that can all be processed, two
    of whose milestones pass the rule, and a sink whose client raises an
    exception that is not its delivery error, the run makes the first
    request and ends in the generic handler; the second milestone that
    passes the rule gets no notification and no counts are reported. *)
Lemma main_cut_short_by_sink :
  Forall (fun page => record_processable noon_2024_02_28 page = true)
    [record_A; record_B; record_C] /\
  flat_map
    (record_reminders demo_config
       (demo_services (Ok (PDict (response_of [record_A; record_B; record_C])))
          sink_unreachable))
    [record_A; record_B; record_C]
  = [reminder "Alice" "Post A" "first draft";
     reminder "Carol" "Post C" "published version"] /\
  posts run_sink_unreachable.2 = [reminder "Alice" "Post A" "first draft"] /\
  last (log run_sink_unreachable.2) = Some (ErrorUnexpected (OtherException "URLError")).
Proof.
  split; [repeat constructor; vm_compute; reflexivity |].
  split; [vm_compute; reflexivity |]. split; vm_compute; reflexivity.
Qed.

(** C4, as amended: when a record carries a milestone date that is a
    non-empty string the parser does not accept, its properties, title,
    author and three dates can be read, and the run reaches it (the records
    before it can be processed and the sink fails with nothing but its own
    delivery error with a readable error code), the exception of the check
    is not caught per record: [main] logs it in its last line through the
    generic handler and returns; the requests made for the earlier records,
    and for the record's own milestones before the failure, stay made; and
    the records after it play no part in the outcome. *)
Theorem main_aborts_on_malformed_date (cfg : config) (sv : services) (st : state)
    (response : gmap string pyval) (before rest : list pyval) (bad : pyval)
    (properties title author_mention first final published : pyval)
    (stage s : string) :
  databases_query sv (NOTION_DATABASE_ID cfg) = Ok (PDict response) ->
  default (PList []) (response !! "results") = PList (before ++ bad :: rest) ->
  sink_typed sv ->
  Forall (fun page => record_processable (now sv) page = true) before ->
  py_get bad "properties" (PDict ∅) = Ok properties ->
  get_page_title properties = Ok title ->
  get_page_author_mention properties = Ok author_mention ->
  get_date_property properties "first_draft_date" = Ok first ->
  get_date_property properties "ready_by_date" = Ok final ->
  get_date_property properties "publishing_date" = Ok published ->
  In (stage, PStr s)
    [("first draft", first); ("final draft", final); ("published version", published)] ->
  s ≠ "" -> (forall dt, strptime s ≠ Ok dt) ->
  exists lg e,
    first_failure (now sv)
      [("first draft", first); ("final draft", final); ("published version", published)]
      = Some e /\
    main cfg sv st =
      (Ok tt,
       mkstate (log st ++ lg ++ [ErrorUnexpected e])
         (posts st ++ flat_map (record_reminders cfg sv) before ++
            (stage_post cfg sv title author_mention <$>
               due_before_failure (now sv)
                 [("first draft", first); ("final draft", final);
                  ("published version", published)]))) /\
    (forall rest',
       main cfg
         (with_query sv
            (fun _ => Ok (PDict (<["results" := PList (before ++ bad :: rest')]> response))))
         st
       = main cfg sv st).
Proof.
  intros Hquery Hresults Hsink Hbefore Hp Ht Ha H1 H2 H3 Hin Hne Hs.
  pose proof (page_fields_of_parts bad properties title author_mention first final
                published Hp Ht Ha H1 H2 H3) as Hfields.
  destruct (processable_records cfg sv before Hbefore) as [Hok Hposts].
  destruct (first_failure_malformed (now sv) _ stage s Hin Hne Hs) as (e & Hfail & He).
  destruct (abort_loop cfg sv before bad title author_mention _ e 0 0
              (mkstate (log st ++ [InfoStarting; InfoQuerying (NOTION_DATABASE_ID cfg)])
                 (posts st)) Hsink Hok Hfields Hfail) as [lg Hloop].
  assert (Hmain : forall sv' rest',
    process_page cfg sv' = process_page cfg sv ->
    fetched_pages (databases_query sv' (NOTION_DATABASE_ID cfg))
      = Ok (before ++ bad :: rest') ->
    main cfg sv' st =
      (Ok tt,
       mkstate
         (log st ++ ([InfoStarting; InfoQuerying (NOTION_DATABASE_ID cfg)] ++ lg)
            ++ [ErrorUnexpected e])
         (posts st ++ flat_map (record_reminders cfg sv) before ++
            (stage_post cfg sv title author_mention <$>
               due_before_failure (now sv)
                 [("first draft", first); ("final draft", final);
                  ("published version", published)])))).
  { intros sv' rest' Hsame Hpages. rewrite main_unfold, Hpages, Hsame. cbn zeta.
    rewrite (Hloop rest'), He, Hposts. cbn [log posts]. now rewrite <- !app_assoc. }
  exists ([InfoStarting; InfoQuerying (NOTION_DATABASE_ID cfg)] ++ lg), e.
  split; [exact Hfail |].
  assert (Hhere : main cfg sv st = _) by
    exact (Hmain sv rest eq_refl (fetched_pages_results _ _ _ Hquery Hresults)).
  split; [exact Hhere |].
  intros rest'. rewrite Hhere. apply (Hmain _ rest').
  - apply process_page_with_query.
  - eapply fetched_pages_results; [reflexivity |]. now rewrite lookup_insert_eq.
Qed.

Lemma main_aborts_on_malformed_date_witness :
  exists lg,
    main demo_config
      (demo_services (Ok (PDict (response_of [record_A; record_bad; record_C]))) sink_accepts)
      empty_state
    = (Ok tt,
       mkstate (lg ++ [ErrorUnexpected ValueError])
         [reminder "Alice" "Post A" "first draft";
          reminder "Xavier" "Post X" "first draft"]).
Proof.
  destruct (main_aborts_on_malformed_date demo_config
              (demo_services (Ok (PDict (response_of [record_A; record_bad; record_C])))
                 sink_accepts)
              empty_state (response_of [record_A; record_bad; record_C])
              [record_A] [record_C] record_bad (properties_of record_bad)
              (PStr "Post X") (PStr "Xavier")
              (PStr "2024-02-29") (PStr "2024-13-40") (PStr "2024-02-29")
              "final draft" "2024-13-40"
              eq_refl eq_refl
              ltac:(intros history p e; discriminate)
              ltac:(repeat constructor; vm_compute; reflexivity)
              ltac:(vm_compute; reflexivity)
              ltac:(vm_compute; reflexivity)
              ltac:(vm_compute; reflexivity)
              ltac:(vm_compute; reflexivity)
              ltac:(vm_compute; reflexivity)
              ltac:(vm_compute; reflexivity)
              ltac:(right; left; reflexivity)
              ltac:(discriminate)
              ltac:(intros dt; vm_compute; discriminate))
    as (lg & e & Hfail & Hmain & _).
  exists lg. injection Hfail as <-. exact Hmain.
Defined.

(** C4 as stated fails at the empty string: a record whose ready-by date
    is present as the empty string, which the parser does not accept, does
    not stop the run; the rule answers false for it, the record's other two
    milestones are notified, the record after it is processed, and the run
    ends with its summary. *)
Lemma main_completes_on_empty_date :
  get_date_property (properties_of record_empty_date) "ready_by_date" = Ok (PStr "") /\
  strptime "" = Raise ValueError /\
  posts run_empty_date.2
  = [reminder "Alice" "Post A" "first draft";
     reminder "Eve" "Post E" "first draft";
     reminder "Eve" "Post E" "published version";
     reminder "Carol" "Post C" "published version"] /\
  last (log run_empty_date.2) = Some (InfoFinished 3 4).
Proof.
  split; [vm_compute; reflexivity |]. split; [reflexivity |].
  split; vm_compute; reflexivity.
Qed.

(** ** Two runs *)

(** A run keeps no memory of what it has notified: when every record can
    be processed and the sink fails with nothing but its own delivery error
    with a readable error code, a second run over the same records, with
    the clock on the same day, makes the requests of the first once
    more. *)
Theorem main_twice (cfg : config) (sv : services) (st : state)
    (response : gmap string pyval) (pages : list pyval) :
  databases_query sv (NOTION_DATABASE_ID cfg) = Ok (PDict response) ->
  default (PList []) (response !! "results") = PList pages ->
  sink_typed sv ->
  Forall (fun page => record_processable (now sv) page = true) pages ->
  exists lg,
    main cfg sv (main cfg sv st).2 =
    (Ok tt,
     mkstate (log st ++ lg)
       (posts st ++ flat_map (record_reminders cfg sv) pages
          ++ flat_map (record_reminders cfg sv) pages)).
Proof.
  intros Hquery Hresults Hsink Hall.
  destruct (processable_records cfg sv pages Hall) as [Hok Hposts].
  destruct (main_complete_run cfg sv st response pages Hquery Hresults Hsink Hok)
    as [lg1 Hfirst].
  rewrite Hfirst. cbn [snd].
  destruct (main_complete_run cfg sv
              (mkstate (log st ++ lg1) (posts st ++ flat_map (expected_posts cfg sv) pages))
              response pages Hquery Hresults Hsink Hok) as [lg2 Hsecond].
  rewrite Hsecond, Hposts. cbn [log posts]. exists (lg1 ++ lg2). now rewrite <- !app_assoc.
Qed.

Lemma main_twice_witness :
  exists lg,
    main demo_config
      (demo_services (Ok (PDict (response_of [record_A; record_B]))) sink_accepts)
      (main demo_config
         (demo_services (Ok (PDict (response_of [record_A; record_B]))) sink_accepts)
         empty_state).2
    = (Ok tt,
       mkstate lg
         [reminder "Alice" "Post A" "first draft"; reminder "Alice" "Post A" "first draft"]).
Proof.
  destruct (main_twice demo_config
              (demo_services (Ok (PDict (response_of [record_A; record_B]))) sink_accepts)
              empty_state (response_of [record_A; record_B]) [record_A; record_B]
              eq_refl eq_refl
              ltac:(intros history p e; discriminate)
              ltac:(repeat constructor; vm_compute; reflexivity)) as [lg Hmain].
  exists lg. exact Hmain.
Defined.
